(** * DHCPv6 reply construction (package dhcp6, packet_builder.go)

    A shallow embedding of the packet builder of netboot's dhcp6 package
    and the properties of it that the specification states.

    Conventions of the embedding:
    - a Go [uint16], [uint32] or [uint64] is a [Z] in the range of its
      width, with the wrap-around of its arithmetic written out;
    - a Go [[]byte] is a [list byte]; where the code slices it, the value
      is a [slice], which also carries the spare capacity of its backing
      array, because Go checks the upper bound of [s[lo:hi]] against
      [cap(s)] and the lower bound of [s[lo:]] against [len(s)];
    - a Go [error] is an [option string]: [None] is the nil error and
      [Some msg] an error whose [Error()] method returns [msg];
    - a run-time panic is a result of its own ([Panicked]);
    - the calls to the two collaborators, [BootConfiguration] and
      [AddressPool], are the nodes of a program tree ([Prog]), so that
      which calls a run makes, and in which order, can be stated. *)

From Stdlib Require Import ZArith Lia List.
From Stdlib.Strings Require Import String Byte.
From Stdlib Require Import Ascii DecimalString.
From stdpp Require Import base option list gmap strings.

Local Open Scope Z_scope.

(** ** Bytes and fixed-width integers *)

Definition Z_of_byte (b : byte) : Z := Z.of_N (Byte.to_N b).

Definition byte_of_Z (z : Z) : byte :=
  default x00 (Byte.of_N (Z.to_N (z mod 256))).

(** [[]byte(s)] for a Go string [s]. *)
Definition bytes_of_string (s : string) : list byte := list_byte_of_string s.

Definition uint32_max : Z := 2 ^ 32.
Definition uint64_max : Z := 2 ^ 64.

Definition is_uint32 (z : Z) : Prop := 0 <= z < uint32_max.

(** [binary.BigEndian.PutUint16] and [binary.BigEndian.PutUint32]. *)
Definition PutUint16 (v : Z) : list byte :=
  [byte_of_Z (Z.shiftr v 8); byte_of_Z v].

Definition PutUint32 (v : Z) : list byte :=
  [byte_of_Z (Z.shiftr v 24); byte_of_Z (Z.shiftr v 16);
   byte_of_Z (Z.shiftr v 8); byte_of_Z v].

(** ** Panics and fallible pure code *)

Inductive PanicKind : Set :=
  | SliceBoundsOutOfRange
  | IndexOutOfRange
  | NilPointerDereference.

Inductive Outcome (A : Type) : Type :=
  | Returned (a : A)
  | Panicked (p : PanicKind).

Arguments Returned {A} a.
Arguments Panicked {A} p.

#[export] Instance Outcome_ret : MRet Outcome := fun _ a => Returned a.

#[export] Instance Outcome_bind : MBind Outcome := fun _ _ f m =>
  match m with
  | Returned a => f a
  | Panicked p => Panicked p
  end.

(** ** Go slices of bytes *)

Record slice : Type := Slice {
  elems : list byte;   (* the [len(s)] visible elements *)
  spare : list byte    (* the rest of the backing array, up to [cap(s)] *)
}.

Definition len (s : slice) : nat := length (elems s).
Definition cap (s : slice) : nat := length (elems s ++ spare s).

(** The nil slice, and a slice with no spare capacity. *)
Definition nilSlice : slice := Slice [] [].
Definition sliceOf (bs : list byte) : slice := Slice bs [].

(** [s[lo:]]: the upper bound defaults to [len(s)], so [lo <= len(s)] is
    required. *)
Definition slice_from (s : slice) (lo : nat) : Outcome slice :=
  if (lo <=? len s)%nat
  then Returned (Slice (drop lo (elems s)) (spare s))
  else Panicked SliceBoundsOutOfRange.

(** [s[0:hi]]: an explicit upper bound is checked against [cap(s)]. *)
Definition slice_upto (s : slice) (hi : nat) : Outcome slice :=
  if (hi <=? cap s)%nat
  then Returned (Slice (take hi (elems s ++ spare s))
                       (drop hi (elems s ++ spare s)))
  else Panicked SliceBoundsOutOfRange.

(** [binary.BigEndian.Uint16(b)]: reads [b[1]] first (the bounds check),
    then [b[0]]. *)
Definition Uint16 (b : slice) : Outcome Z :=
  match elems b with
  | b0 :: b1 :: _ =>
      Returned (Z.lor (Z_of_byte b1) (Z.shiftl (Z_of_byte b0) 8))
  | _ => Panicked IndexOutOfRange
  end.

(** ** The builder's configuration and its timers *)

Record PacketBuilder : Type := {
  PreferredLifetime : Z;   (* uint32 *)
  ValidLifetime : Z        (* uint32 *)
}.

Definition MakePacketBuilder (preferredLifetime validLifetime : Z)
  : PacketBuilder :=
  {| PreferredLifetime := preferredLifetime;
     ValidLifetime := validLifetime |}.

(** [b.PreferredLifetime / 2], in [uint32]. *)
Definition calculateT1 (b : PacketBuilder) : Z :=
  PreferredLifetime b / 2.

(** [(b.PreferredLifetime * 4)/5], in [uint32]: the product wraps around
    at 32 bits before it is divided. *)
Definition calculateT2 (b : PacketBuilder) : Z :=
  ((PreferredLifetime b * 4) mod uint32_max) / 5.

(** ** Identity extraction *)

Definition ExtractLLAddressOrID (optClientID : slice) : Outcome slice :=
  hd ← slice_upto optClientID 2;
  idType ← Uint16 hd;
  if idType =? 1 then slice_from optClientID 8
  else if idType =? 3 then slice_from optClientID 4
  else slice_from optClientID 2.

(** ** The content hash of an association identifier *)

Definition fnv_offset64 : Z := 14695981039346656037.
Definition fnv_prime64 : Z := 1099511628211.

(** One byte of [hash/fnv]'s 64-bit FNV-1a: xor the byte in, then
    multiply by the prime, in [uint64]. *)
Definition fnv64a_step (h : Z) (c : byte) : Z :=
  (Z.lxor h (Z_of_byte c) * fnv_prime64) mod uint64_max.

(** [h := fnv.New64a(); h.Write(interfaceID); h.Sum64()]. *)
Definition calculateIAIDHash (interfaceID : list byte) : Z :=
  fold_left fnv64a_step interfaceID fnv_offset64.

(** ** Options and packets *)

(** Modelled from the spec: the declarations of the option codes and of
    the message types are not in packet_builder.go; their values are the
    ones the protocol standard fixes (RFC 3315, 3646, 5970). *)
Definition OptClientID : Z := 1.
Definition OptServerID : Z := 2.
Definition OptIaNa : Z := 3.
Definition OptIaAddr : Z := 5.
Definition OptPreference : Z := 7.
Definition OptStatusCode : Z := 13.
Definition OptVendorClass : Z := 16.
Definition OptRecursiveDNS : Z := 23.
Definition OptBootfileURL : Z := 59.

Definition MsgSolicit : Z := 1.
Definition MsgAdvertise : Z := 2.
Definition MsgRequest : Z := 3.
Definition MsgReply : Z := 7.
Definition MsgRelease : Z := 8.
Definition MsgInformationRequest : Z := 11.

(** Modelled from the spec: the [Option] type and [MakeOption] are not in
    packet_builder.go; an option is a (code, raw byte payload) pair. *)
Record Option : Type := {
  ID : Z;               (* uint16 *)
  Value : list byte
}.

Definition MakeOption (id : Z) (value : list byte) : Option :=
  {| ID := id; Value := value |}.

(** Modelled from the spec: the serializer of an option is not in
    packet_builder.go; on the wire an option is its 2-byte code, its
    2-byte length and its payload, the length being the sole delimiter. *)
Definition Option_Marshal (o : Option) : list byte :=
  PutUint16 (ID o) ++ PutUint16 (Z.of_nat (length (Value o))) ++ Value o.

(** Modelled from the spec: the [Options] type, [AddOption] and the
    serializer of a collection are not in packet_builder.go; the options
    of a packet are an ordered collection of (code, value) entries in
    which a code may appear more than once, insertion order is preserved
    and is the order on the wire. *)
Definition Options : Type := list Option.

Definition AddOption (option : Option) (o : Options) : Options :=
  o ++ [option].


(** A field of [n] bytes holding [bs]. *)
Definition field (n : nat) (bs : list byte) : list byte :=
  take n (bs ++ replicate n x00).

Definition IP : Type := list byte.

(** Modelled from the spec: the option encoders are not in
    packet_builder.go; their layouts are
    IA-address = address[16] + preferred[4] + valid[4],
    IA-NA = association-ID[4] + T1[4] + T2[4] + nested options,
    status = code[2] + message,
    recursive-DNS-servers = the addresses in list order, 16 bytes each. *)
Definition MakeIaAddrOption (addr : IP) (preferredLifetime validLifetime : Z)
  : Option :=
  MakeOption OptIaAddr
    (field 16 addr ++ PutUint32 preferredLifetime ++ PutUint32 validLifetime).

Definition MakeIaNaOption (iaid : list byte) (t1 t2 : Z) (iaOption : Option)
  : Option :=
  MakeOption OptIaNa
    (field 4 iaid ++ PutUint32 t1 ++ PutUint32 t2 ++ Option_Marshal iaOption).

Definition MakeStatusOption (statusCode : Z) (message : string) : Option :=
  MakeOption OptStatusCode (PutUint16 statusCode ++ bytes_of_string message).

Definition MakeDNSServersOption (addresses : list IP) : Option :=
  MakeOption OptRecursiveDNS (concat (map (field 16) addresses)).

(** The fields of a packet that packet_builder.go reads and writes. *)
Record Packet : Type := {
  Type_ : Z;                     (* the message type *)
  TransactionID : list byte;     (* [3]byte *)
  Options_ : Options
}.

(** The accessors of the options of the inbound packet are not in
    packet_builder.go either, and the spec does not define them: the
    builder is verified for any three functions of these types. *)
Class OptionAccessors : Type := {
  ClientID : Options -> slice;               (* []byte, nil when absent *)
  ClientArchType : Options -> Z;             (* uint16 *)
  IaNaIDs : Options -> list (list byte)      (* [][]byte *)
}.

(** ** Errors and the collaborators *)

Definition error : Type := option string.

(** [err.Error()]: calling the method on the nil error panics. *)
Definition Error (err : error) : Outcome string :=
  match err with
  | Some msg => Returned msg
  | None => Panicked NilPointerDereference
  end.

(** The fields of an association that packet_builder.go reads. *)
Record IdentityAssociation : Type := {
  IPAddress : IP;
  InterfaceID : list byte
}.

(** The two interfaces, with the methods packet_builder.go calls, as the
    answers of an implementation. The builder calls [ReleaseAddresses] as
    a statement: its result, an error in the contract of the spec, is
    dropped. *)
Record BootConfiguration : Type := {
  GetBootURL : list byte -> Z -> list byte * error;
  GetPreference : option (list byte);        (* []byte, may be nil *)
  GetRecursiveDNS : list IP
}.

Record AddressPool : Type := {
  ReserveAddresses :
    list byte -> list (list byte) -> list IdentityAssociation * error;
  ReleaseAddresses : list byte -> list (list byte) -> error
}.

(** ** Programs that call the collaborators *)

Inductive Call : Type -> Type :=
  | CallGetBootURL (id : list byte) (clientArchType : Z)
      : Call (list byte * error)
  | CallGetPreference : Call (option (list byte))
  | CallGetRecursiveDNS : Call (list IP)
  | CallReserveAddresses (clientID : list byte) (interfaceIDs : list (list byte))
      : Call (list IdentityAssociation * error)
  | CallReleaseAddresses (clientID : list byte) (interfaceIDs : list (list byte))
      : Call error.

Inductive Prog (A : Type) : Type :=
  | Ret (a : A)
  | Panic (p : PanicKind)
  | Vis {X : Type} (c : Call X) (k : X -> Prog A).

Arguments Ret {A} a.
Arguments Panic {A} p.
Arguments Vis {A X} c k.

Fixpoint Prog_bind_ {A B : Type} (f : A -> Prog B) (m : Prog A) : Prog B :=
  match m with
  | Ret a => f a
  | Panic p => Panic p
  | Vis c k => Vis c (fun x => Prog_bind_ f (k x))
  end.

#[export] Instance Prog_ret : MRet Prog := fun _ a => Ret a.
#[export] Instance Prog_bind : MBind Prog := fun _ _ f m => Prog_bind_ f m.

Definition call {X : Type} (c : Call X) : Prog X := Vis c Ret.

Definition pure {A : Type} (o : Outcome A) : Prog A :=
  match o with
  | Returned a => Ret a
  | Panicked p => Panic p
  end.

(** A call made during a run. *)
Inductive Event : Type :=
  | Invoked {X : Type} (c : Call X).

Definition answer (configuration : BootConfiguration) (addresses : AddressPool)
    {X : Type} (c : Call X) : X :=
  match c with
  | CallGetBootURL id clientArchType =>
      GetBootURL configuration id clientArchType
  | CallGetPreference => GetPreference configuration
  | CallGetRecursiveDNS => GetRecursiveDNS configuration
  | CallReserveAddresses clientID interfaceIDs =>
      ReserveAddresses addresses clientID interfaceIDs
  | CallReleaseAddresses clientID interfaceIDs =>
      ReleaseAddresses addresses clientID interfaceIDs
  end.

(** Running a program against two implementations: its result and the
    calls it made, in order. *)
Fixpoint run {A : Type} (configuration : BootConfiguration)
    (addresses : AddressPool) (p : Prog A) : Outcome A * list Event :=
  match p with
  | Ret a => (Returned a, [])
  | Panic e => (Panicked e, [])
  | Vis c k =>
      let '(r, calls) :=
        run configuration addresses (k (answer configuration addresses c)) in
      (r, Invoked c :: calls)
  end.

(** ** The builders *)

(** [for _, x := range l { body }] over a state [S], where the body can
    panic. *)
Fixpoint forRange {A S : Type} (body : S -> A -> Outcome S) (l : list A)
    (s : S) : Outcome S :=
  match l with
  | [] => Returned s
  | x :: l' => s' ← body s x; forRange body l' s'
  end.

(** The payload of the vendor-class option: the enterprise number 0, then
    one item of length 10, [HTTPClient]. *)
Definition vendorClassHTTPClient : list byte :=
  map byte_of_Z [0; 0; 0; 0; 0; 10; 72; 84; 84; 80; 67; 108; 105; 101; 110; 116].

(** The IA-NA option of a granted association. *)
Definition addressEntry (b : PacketBuilder) (association : IdentityAssociation)
  : Option :=
  MakeIaNaOption (InterfaceID association) (calculateT1 b) (calculateT2 b)
    (MakeIaAddrOption (IPAddress association)
       (PreferredLifetime b) (ValidLifetime b)).

(** The IA-NA option of an association without an address. *)
Definition statusEntry (b : PacketBuilder) (ia : list byte) (message : string)
  : Option :=
  MakeIaNaOption ia (calculateT1 b) (calculateT2 b)
    (MakeStatusOption 2 message).

Definition MakeMsgAdvertise (b : PacketBuilder) (transactionID : list byte)
    (serverDUID clientID : list byte) (clientArchType : Z)
    (associations : list IdentityAssociation)
    (bootFileURL : list byte) (preference : option (list byte))
    (dnsServers : list IP) : Packet :=
  let retOptions : Options := [] in
  let retOptions := AddOption (MakeOption OptClientID clientID) retOptions in
  let retOptions :=
    fold_left (fun retOptions association =>
                 AddOption (addressEntry b association) retOptions)
      associations retOptions in
  let retOptions := AddOption (MakeOption OptServerID serverDUID) retOptions in
  let retOptions :=
    if 16 =? clientArchType
    then AddOption (MakeOption OptVendorClass vendorClassHTTPClient) retOptions
    else retOptions in
  let retOptions := AddOption (MakeOption OptBootfileURL bootFileURL) retOptions in
  let retOptions :=
    match preference with
    | Some p => AddOption (MakeOption OptPreference p) retOptions
    | None => retOptions
    end in
  let retOptions :=
    if (0 <? length dnsServers)%nat
    then AddOption (MakeDNSServersOption dnsServers) retOptions
    else retOptions in
  {| Type_ := MsgAdvertise; TransactionID := transactionID;
     Options_ := retOptions |}.

Definition MakeMsgReply (b : PacketBuilder) (transactionID : list byte)
    (serverDUID clientID : list byte) (clientArchType : Z)
    (associations : list IdentityAssociation)
    (iasWithoutAddresses : list (list byte))
    (bootFileURL : list byte) (dnsServers : list IP) (err : error)
  : Outcome Packet :=
  let retOptions : Options := [] in
  let retOptions := AddOption (MakeOption OptClientID clientID) retOptions in
  let retOptions :=
    fold_left (fun retOptions association =>
                 AddOption (addressEntry b association) retOptions)
      associations retOptions in
  retOptions ←
    forRange (fun retOptions ia =>
                message ← Error err;
                mret (AddOption (statusEntry b ia message) retOptions))
      iasWithoutAddresses retOptions;
  let retOptions := AddOption (MakeOption OptServerID serverDUID) retOptions in
  let retOptions :=
    if 16 =? clientArchType
    then AddOption (MakeOption OptVendorClass vendorClassHTTPClient) retOptions
    else retOptions in
  let retOptions := AddOption (MakeOption OptBootfileURL bootFileURL) retOptions in
  let retOptions :=
    if (0 <? length dnsServers)%nat
    then AddOption (MakeDNSServersOption dnsServers) retOptions
    else retOptions in
  mret {| Type_ := MsgReply; TransactionID := transactionID;
          Options_ := retOptions |}.

Definition MakeMsgInformationRequestReply (b : PacketBuilder)
    (transactionID : list byte) (serverDUID clientID : list byte)
    (clientArchType : Z) (bootFileURL : list byte) (dnsServers : list IP)
  : Packet :=
  let retOptions : Options := [] in
  let retOptions := AddOption (MakeOption OptClientID clientID) retOptions in
  let retOptions := AddOption (MakeOption OptServerID serverDUID) retOptions in
  let retOptions :=
    if 16 =? clientArchType
    then AddOption (MakeOption OptVendorClass vendorClassHTTPClient) retOptions
    else retOptions in
  let retOptions := AddOption (MakeOption OptBootfileURL bootFileURL) retOptions in
  let retOptions :=
    if (0 <? length dnsServers)%nat
    then AddOption (MakeDNSServersOption dnsServers) retOptions
    else retOptions in
  {| Type_ := MsgReply; TransactionID := transactionID;
     Options_ := retOptions |}.

(** The contents of [dst] after [copy(dst, src)]: the first
    [min(len(dst), len(src))] elements come from [src]. *)
Definition copy (dst src : list byte) : list byte :=
  take (length dst) (src ++ drop (length src) dst).

(** [v := make([]byte, 19, 19); copy(v[2:], []byte("Release received."))]. *)
Definition releaseStatus : list byte :=
  let v := replicate 19 x00 in
  take 2 v ++ copy (drop 2 v) (bytes_of_string "Release received.").

Definition MakeMsgReleaseReply (b : PacketBuilder) (transactionID : list byte)
    (serverDUID clientID : list byte) : Packet :=
  let retOptions : Options := [] in
  let retOptions := AddOption (MakeOption OptClientID clientID) retOptions in
  let retOptions := AddOption (MakeOption OptServerID serverDUID) retOptions in
  let v := releaseStatus in
  let retOptions := AddOption (MakeOption OptStatusCode v) retOptions in
  {| Type_ := MsgReply; TransactionID := transactionID;
     Options_ := retOptions |}.

Definition MakeMsgAdvertiseWithNoAddrsAvailable (b : PacketBuilder)
    (transactionID : list byte) (serverDUID clientID : list byte)
    (err : error) : Outcome Packet :=
  let retOptions : Options := [] in
  let retOptions := AddOption (MakeOption OptClientID clientID) retOptions in
  let retOptions := AddOption (MakeOption OptServerID serverDUID) retOptions in
  message ← Error err;
  let retOptions := AddOption (MakeStatusOption 2 message) retOptions in
  mret {| Type_ := MsgAdvertise; TransactionID := transactionID;
          Options_ := retOptions |}.

(** ** Associations without an address *)

Definition iasWithoutAddesses (availableAssociations : list IdentityAssociation)
    (allIAs : list (list byte)) : list (list byte) :=
  let ret : list (list byte) := [] in
  let iasWithAddresses : gmap Z bool :=
    fold_left (fun (m : gmap Z bool) association =>
                 <[calculateIAIDHash (InterfaceID association) := true]> m)
      availableAssociations ∅ in
  fold_left (fun ret ia =>
               match iasWithAddresses !! calculateIAIDHash ia with
               | Some _ => ret
               | None => ret ++ [ia]
               end)
    allIAs ret.

(** ** The dispatch on the message type *)

Section BuildResponse.

Context `{OptionAccessors}.

Definition BuildResponse (b : PacketBuilder) (in_ : Packet)
    (serverDUID : list byte) : Prog (option Packet * error) :=
  let clientID := elems (ClientID (Options_ in_)) in
  if Type_ in_ =? MsgSolicit then
    id ← pure (ExtractLLAddressOrID (ClientID (Options_ in_)));
    '(bootFileURL, err) ←
      call (CallGetBootURL (elems id) (ClientArchType (Options_ in_)));
    match err with
    | Some _ => mret (None, err)
    | None =>
        '(associations, err) ←
          call (CallReserveAddresses clientID (IaNaIDs (Options_ in_)));
        match err with
        | Some _ =>
            p ← pure (MakeMsgAdvertiseWithNoAddrsAvailable b
                        (TransactionID in_) serverDUID clientID err);
            mret (Some p, err)
        | None =>
            preference ← call CallGetPreference;
            dnsServers ← call CallGetRecursiveDNS;
            mret (Some (MakeMsgAdvertise b (TransactionID in_) serverDUID
                          clientID (ClientArchType (Options_ in_))
                          associations bootFileURL preference dnsServers),
                  None)
        end
    end
  else if Type_ in_ =? MsgRequest then
    id ← pure (ExtractLLAddressOrID (ClientID (Options_ in_)));
    '(bootFileURL, err) ←
      call (CallGetBootURL (elems id) (ClientArchType (Options_ in_)));
    match err with
    | Some _ => mret (None, err)
    | None =>
        '(associations, err) ←
          call (CallReserveAddresses clientID (IaNaIDs (Options_ in_)));
        let missing := iasWithoutAddesses associations (IaNaIDs (Options_ in_)) in
        dnsServers ← call CallGetRecursiveDNS;
        p ← pure (MakeMsgReply b (TransactionID in_) serverDUID clientID
                    (ClientArchType (Options_ in_)) associations missing
                    bootFileURL dnsServers err);
        mret (Some p, err)
    end
  else if Type_ in_ =? MsgInformationRequest then
    id ← pure (ExtractLLAddressOrID (ClientID (Options_ in_)));
    '(bootFileURL, err) ←
      call (CallGetBootURL (elems id) (ClientArchType (Options_ in_)));
    match err with
    | Some _ => mret (None, err)
    | None =>
        dnsServers ← call CallGetRecursiveDNS;
        mret (Some (MakeMsgInformationRequestReply b (TransactionID in_)
                      serverDUID clientID (ClientArchType (Options_ in_))
                      bootFileURL dnsServers),
              None)
    end
  else if Type_ in_ =? MsgRelease then
    _ ← call (CallReleaseAddresses clientID (IaNaIDs (Options_ in_)));
    mret (Some (MakeMsgReleaseReply b (TransactionID in_) serverDUID clientID),
          None)
  else
    mret (None, None).

End BuildResponse.

(** * The iPXE script and the HTTP handlers (package pixiecore, http.go)

    Conventions of this part:
    - a Go [string] is a [string]; [s +:+ t] is the concatenation;
    - the handlers are modelled by the calls they make, in order, on the
      response writer, on the log and on the booter ([Effect]);
    - what the code takes from elsewhere and http.go does not define is a
      parameter: the parsers of the standard library, the rendering of
      [fmt.Sprintf], the architecture constants, [expandCmdline]. *)

(** ** Text *)

Definition nl : string := String (ascii_of_nat 10) "".

(** [%d] of a non-negative [int]. *)
Definition decimal (i : nat) : string :=
  NilEmpty.string_of_uint (Nat.to_uint i).

(** [url.QueryEscape]: letters, digits and [-_.~] are kept, a space
    becomes [+], and every other byte becomes [%XX] with upper-case
    hexadecimal digits. *)
Definition between (lo hi c : ascii) : bool :=
  ((nat_of_ascii lo <=? nat_of_ascii c) &&
   (nat_of_ascii c <=? nat_of_ascii hi))%nat.

Definition shouldEscape (c : ascii) : bool :=
  if between "a" "z" c || between "A" "Z" c || between "0" "9" c then false
  else if Ascii.eqb c "-" || Ascii.eqb c "_" || Ascii.eqb c "." ||
          Ascii.eqb c "~" then false
  else true.

Definition upperhex (n : nat) : ascii :=
  nth n (list_ascii_of_string "0123456789ABCDEF") "0"%char.

Definition escapeByte (c : ascii) : string :=
  if Ascii.eqb c " " then "+"
  else if shouldEscape c
       then String "%" (String (upperhex (nat_of_ascii c / 16))
                          (String (upperhex (nat_of_ascii c mod 16)) ""))
       else String c "".

Fixpoint QueryEscape (s : string) : string :=
  match s with
  | EmptyString => ""
  | String c s' => escapeByte c +:+ QueryEscape s'
  end.

(** ** The boot specification and the machines *)

(** The fields of [Spec] that http.go reads; an [ID] is a string. *)
Record Spec : Type := {
  Kernel : string;
  Initrd : list string;
  Cmdline : string
}.

Record Machine : Type := {
  MAC : list byte;        (* net.HardwareAddr *)
  Arch : Z                (* Architecture *)
}.

(** The [io.ReadCloser] of a boot file, as what [io.Copy] from it into
    the response returns. *)
Record ReadCloser : Type := {
  fileName : string;
  copyResult : Z * error
}.

(** The two methods of the [Booter] interface that http.go calls, as the
    answers of an implementation; the pointer and the interface value
    they return may be nil. *)
Record Booter : Type := {
  BootSpec : Machine -> option Spec * error;
  ReadBootFile : string -> option ReadCloser * error
}.

(** The part of a request the handlers read: [r.URL.Query().Get] and
    [r.Host]. *)
Record Request : Type := {
  QueryGet : string -> string;
  Host : string
}.

(** An argument of a format. *)
Inductive Arg : Type :=
  | ArgString (s : string)
  | ArgError (msg : string)
  | ArgArch (arch : Z)
  | ArgMAC (mac : list byte)
  | ArgMachine (mach : Machine).

(** What a handler does, call by call. *)
Inductive Effect : Type :=
  | LogHTTP (format : string) (args : list Arg)   (* s.logHTTP(r, ...) *)
  | HTTPError (body : string) (status : Z)        (* http.Error(w, ...) *)
  | HeaderSet (key value : string)                (* w.Header().Set(...) *)
  | Write (data : option string)                  (* w.Write(...) *)
  | CalledBootSpec (mach : Machine)
  | CalledReadBootFile (name : string)
  | Copied (f : ReadCloser)                       (* io.Copy(w, f) *)
  | Closed (f : ReadCloser)                       (* f.Close() *)
  | Panics (p : PanicKind).

Definition StatusBadRequest : Z := 400.
Definition StatusNotFound : Z := 404.
Definition StatusInternalServerError : Z := 500.

Section Pixiecore.

(** [fmt.Sprintf], whose rendering of the arguments depends on methods
    that are not in http.go. *)
Variable Sprintf : string -> list Arg -> string.

(** [strconv.Quote], the rendering of a string by [%q]. *)
Variable Quote : string -> string.

(** [net.ParseMAC] and [strconv.Atoi]. *)
Variable ParseMAC : string -> list byte * error.
Variable Atoi : string -> Z * error.

(** The two architectures the server knows. *)
Variables ArchIA32 ArchX64 : Z.

(** [expandCmdline], given the template and the function bound to [ID]. *)
Variable expandCmdline : string -> (string -> string) -> string * error.

Definition httpError (status : Z) (format : string) (args : list Arg)
  : list Effect :=
  [LogHTTP format args; HTTPError (Sprintf format args) status].

Definition ipxeScript (spec : Spec) (serverHost : string)
  : option string * error :=
  if String.eqb (Kernel spec) "" then
    (None, Some "spec is missing Kernel"%string)
  else
    let urlPrefix := "http://" +:+ serverHost +:+ "/_/file?name=" in
    let b := ""%string in
    let b := b +:+ "#!ipxe" +:+ nl in
    let b := b +:+ "kernel --name kernel " +:+ urlPrefix +:+
             QueryEscape (Kernel spec) +:+ nl in
    let b :=
      fold_left (fun b '(i, initrd) =>
                   b +:+ "initrd --name initrd" +:+ decimal i +:+ " " +:+
                   urlPrefix +:+ QueryEscape initrd +:+ nl)
        (combine (seq 0 (length (Initrd spec))) (Initrd spec)) b in
    let b := b +:+ "boot kernel " in
    let b :=
      fold_left (fun b i => b +:+ "initrd=initrd" +:+ decimal i +:+ " ")
        (seq 0 (length (Initrd spec))) b in
    let f := fun id : string =>
      "http://" +:+ serverHost +:+ "/_/file?name=" +:+ QueryEscape id in
    let '(cmdline, err) := expandCmdline (Cmdline spec) f in
    match err with
    | Some msg =>
        (None, Some ("expanding cmdline " +:+ Quote (Cmdline spec) +:+ ": "
                     +:+ msg))
    | None =>
        let b := b +:+ cmdline in
        let b := b +:+ nl in
        (Some b, None)
    end.

Definition handleIpxe (s : Booter) (r : Request) : list Effect :=
  let args := QueryGet r in
  let '(mac, err) := ParseMAC (args "mac"%string) in
  match err with
  | Some e =>
      httpError StatusBadRequest ("invalid MAC address %q: %s" +:+ nl)
        [ArgString (args "mac"%string); ArgError e]
  | None =>
      let '(i, err) := Atoi (args "arch"%string) in
      match err with
      | Some e =>
          httpError StatusBadRequest ("invalid architecture %q: %s" +:+ nl)
            [ArgString (args "arch"%string); ArgError e]
      | None =>
          let arch := i in
          if (arch =? ArchIA32) || (arch =? ArchX64) then
            let mach := {| MAC := mac; Arch := arch |} in
            CalledBootSpec mach ::
            let '(spec, err) := BootSpec s mach in
            match err with
            | Some e =>
                [LogHTTP "error getting bootspec for %#v: %s"
                   [ArgMachine mach; ArgError e];
                 HTTPError "couldn't get a bootspec"
                   StatusInternalServerError]
            | None =>
                match spec with
                | None =>
                    httpError StatusNotFound "no bootspec found for %q"
                      [ArgMAC (MAC mach)]
                | Some spec =>
                    let '(script, err) := ipxeScript spec (Host r) in
                    match err with
                    | Some e =>
                        [LogHTTP "failed to assemble ipxe script: %s"
                           [ArgError e];
                         HTTPError "couldn't get a bootspec"
                           StatusInternalServerError]
                    | None => []
                    end ++
                    [HeaderSet "Content-Type" "text/plain"; Write script]
                end
            end
          else
            httpError StatusBadRequest ("Unknown architecture %q" +:+ nl)
              [ArgArch arch]
      end
  end.

Definition handleFile (s : Booter) (r : Request) : list Effect :=
  let name := QueryGet r "name"%string in
  CalledReadBootFile name ::
  let '(f, err) := ReadBootFile s name in
  match err with
  | Some e =>
      [LogHTTP "error getting requested file %q: %s"
         [ArgString name; ArgError e];
       HTTPError "couldn't get file" StatusInternalServerError]
  | None =>
      match f with
      | None => [Panics NilPointerDereference]   (* defer f.Close() *)
      | Some f =>
          Copied f ::
          match snd (copyResult f) with
          | Some e =>
              [LogHTTP "copy of file %q failed: %s"
                 [ArgString name; ArgError e]]
          | None => []
          end ++
          [Closed f]
      end
  end.

End Pixiecore.

(** ** Vocabulary of the properties *)

(** The 2-byte big-endian tag at the head of a payload. *)
Definition duidType (payload : list byte) : option Z :=
  match payload with
  | b0 :: b1 :: _ => Some (256 * Z_of_byte b0 + Z_of_byte b1)
  | _ => None
  end.

(** A client identifier on which the extraction reads out of range. *)
Definition malformedClientID (s : slice) : Prop :=
  (len s < 2)%nat \/
  (duidType (elems s) = Some 1 /\ (len s < 8)%nat) \/
  (duidType (elems s) = Some 3 /\ (len s < 4)%nat).

(** The message types whose handling starts with the identity extraction
    and the boot URL lookup. *)
Definition needsBootURL (in_ : Packet) : Prop :=
  Type_ in_ = MsgSolicit \/ Type_ in_ = MsgRequest \/
  Type_ in_ = MsgInformationRequest.

(** The message types the builder answers. *)
Definition handled (in_ : Packet) : Prop :=
  needsBootURL in_ \/ Type_ in_ = MsgRelease.

(** An option present or absent, in a list of options. *)
Definition optionally (present : bool) (o : Option) : list Option :=
  if present then [o] else [].

(** The conditional options of a reply. *)
Definition vendorClassOption (clientArchType : Z) : list Option :=
  optionally (16 =? clientArchType)
    (MakeOption OptVendorClass vendorClassHTTPClient).

Definition preferenceOption (preference : option (list byte)) : list Option :=
  match preference with
  | Some p => [MakeOption OptPreference p]
  | None => []
  end.

Definition dnsOption (dnsServers : list IP) : list Option :=
  optionally (0 <? length dnsServers)%nat (MakeDNSServersOption dnsServers).

(** The options of a Reply to a Request, in the assembly order of the
    spec, [message] being the text of the status-coded entries. *)
Definition replyOptions (b : PacketBuilder) (serverDUID clientID : list byte)
    (clientArchType : Z) (associations : list IdentityAssociation)
    (iasWithoutAddresses : list (list byte)) (message : string)
    (bootFileURL : list byte) (dnsServers : list IP) : Options :=
  [MakeOption OptClientID clientID] ++
  map (addressEntry b) associations ++
  map (fun ia => statusEntry b ia message) iasWithoutAddresses ++
  [MakeOption OptServerID serverDUID] ++
  vendorClassOption clientArchType ++
  [MakeOption OptBootfileURL bootFileURL] ++
  dnsOption dnsServers.

Definition hasOption (code : Z) (p : Packet) : bool :=
  existsb (fun o => ID o =? code) (Options_ p).

Definition isVendorClass (o : Option) : bool := ID o =? OptVendorClass.

(** The association identifiers of a packet: the first field of each of
    its IA-NA options. *)
Definition replyIaNaIDs (p : Packet) : list (list byte) :=
  map (fun o => take 4 (Value o))
    (List.filter (fun o => ID o =? OptIaNa) (Options_ p)).

(** The identifiers of the granted associations. *)
Definition granted (associations : list IdentityAssociation)
  : list (list byte) :=
  map InterfaceID associations.

(** Whether the hash of [ia] is the hash of a granted identifier: the
    membership test of [iasWithoutAddesses]. *)
Definition hashGranted (associations : list IdentityAssociation)
    (ia : list byte) : bool :=
  existsb (fun a => calculateIAIDHash a =? calculateIAIDHash ia)
    (granted associations).

(** No granted identifier has the hash of another requested identifier. *)
Definition collisionFree (associations : list IdentityAssociation)
    (allIAs : list (list byte)) : Prop :=
  forall a ia, In a (granted associations) -> In ia allIAs ->
    calculateIAIDHash a = calculateIAIDHash ia -> a = ia.

(** ** Implementations for the worked examples *)

Definition OptClientArchType : Z := 61.

Definition firstOption (code : Z) (o : Options) : option Option :=
  head (List.filter (fun x => ID x =? code) o).

(** Accessors that read the inbound options by their codes. *)
Definition exampleAccessors : OptionAccessors := {|
  ClientID o :=
    match firstOption OptClientID o with
    | Some x => sliceOf (Value x)
    | None => nilSlice
    end;
  ClientArchType o :=
    match firstOption OptClientArchType o with
    | Some x => default 0 (duidType (Value x))
    | None => 0
    end;
  IaNaIDs o :=
    map (fun x => take 4 (Value x))
      (List.filter (fun x => ID x =? OptIaNa) o)
|}.

(** An inbound message of a client with a DUID of type 3 (link-layer
    address 02:00:00:00:00:01). *)
Definition exampleClientID : list byte :=
  map byte_of_Z [0; 3; 0; 1; 2; 0; 0; 0; 0; 1].

Definition exampleMessage (type clientArchType : Z) (ias : list (list byte))
  : Packet :=
  {| Type_ := type;
     TransactionID := map byte_of_Z [10; 11; 12];
     Options_ :=
       [MakeOption OptClientID exampleClientID] ++
       map (fun ia => MakeOption OptIaNa (ia ++ PutUint32 0 ++ PutUint32 0)) ias ++
       [MakeOption OptClientArchType (PutUint16 clientArchType)] |}.

Definition exampleServerDUID : list byte :=
  map byte_of_Z [0; 3; 0; 1; 2; 0; 0; 0; 0; 254].

Definition exampleBuilder : PacketBuilder := MakePacketBuilder 3600 7200.

Definition exampleConfiguration : BootConfiguration := {|
  GetBootURL _ _ := (bytes_of_string "http://[2001:db8::1]/boot.efi", None);
  GetPreference := None;
  GetRecursiveDNS := []
|}.

(** A boot configuration without a match for the client. *)
Definition failingConfiguration : BootConfiguration := {|
  GetBootURL _ _ := ([], Some "no boot configuration"%string);
  GetPreference := None;
  GetRecursiveDNS := []
|}.

(** A pool that grants the given associations and reports the given
    errors. *)
Definition poolGranting (associations : list IdentityAssociation)
    (err releaseErr : error) : AddressPool := {|
  ReserveAddresses _ _ := (associations, err);
  ReleaseAddresses _ _ := releaseErr
|}.

Definition exampleAddress : IP :=
  map byte_of_Z [32; 1; 13; 184; 0; 0; 0; 0; 0; 0; 0; 0; 0; 0; 0; 5].

Definition grant (ia : list byte) : IdentityAssociation :=
  {| IPAddress := exampleAddress; InterfaceID := ia |}.

Definition iaA1 : list byte := map byte_of_Z [0; 0; 0; 1].
Definition iaA2 : list byte := map byte_of_Z [0; 0; 0; 2].

(** ** The runs of [BuildResponse], case by case *)

Section RunCases.

Context `{OptionAccessors}.

Variables (b : PacketBuilder) (in_ : Packet) (serverDUID : list byte).
Variables (configuration : BootConfiguration) (addresses : AddressPool).

(** The result and the calls of a run of [BuildResponse] on [in_]: one
    case for each path through the function. *)
Inductive BuildResponseRun
  : Outcome (option Packet * error) * list Event -> Prop :=
  | RunUnhandled :
      ~ handled in_ ->
      BuildResponseRun (Returned (None, None), [])
  | RunRelease :
      Type_ in_ = MsgRelease ->
      BuildResponseRun
        (Returned
           (Some (MakeMsgReleaseReply b (TransactionID in_) serverDUID
                    (elems (ClientID (Options_ in_)))), None),
         [Invoked (CallReleaseAddresses (elems (ClientID (Options_ in_)))
                     (IaNaIDs (Options_ in_)))])
  | RunExtractionPanics p :
      needsBootURL in_ ->
      ExtractLLAddressOrID (ClientID (Options_ in_)) = Panicked p ->
      BuildResponseRun (Panicked p, [])
  | RunLookupFails id bootFileURL msg :
      needsBootURL in_ ->
      ExtractLLAddressOrID (ClientID (Options_ in_)) = Returned id ->
      GetBootURL configuration (elems id) (ClientArchType (Options_ in_)) =
        (bootFileURL, Some msg) ->
      BuildResponseRun
        (Returned (None, Some msg),
         [Invoked (CallGetBootURL (elems id) (ClientArchType (Options_ in_)))])
  | RunSolicitNoAddrs id bootFileURL associations msg :
      Type_ in_ = MsgSolicit ->
      ExtractLLAddressOrID (ClientID (Options_ in_)) = Returned id ->
      GetBootURL configuration (elems id) (ClientArchType (Options_ in_)) =
        (bootFileURL, None) ->
      ReserveAddresses addresses (elems (ClientID (Options_ in_)))
        (IaNaIDs (Options_ in_)) = (associations, Some msg) ->
      BuildResponseRun
        (Returned
           (Some {| Type_ := MsgAdvertise; TransactionID := TransactionID in_;
                    Options_ :=
                      [MakeOption OptClientID (elems (ClientID (Options_ in_)));
                       MakeOption OptServerID serverDUID;
                       MakeStatusOption 2 msg] |}, Some msg),
         [Invoked (CallGetBootURL (elems id) (ClientArchType (Options_ in_)));
          Invoked (CallReserveAddresses (elems (ClientID (Options_ in_)))
                     (IaNaIDs (Options_ in_)))])
  | RunSolicit id bootFileURL associations :
      Type_ in_ = MsgSolicit ->
      ExtractLLAddressOrID (ClientID (Options_ in_)) = Returned id ->
      GetBootURL configuration (elems id) (ClientArchType (Options_ in_)) =
        (bootFileURL, None) ->
      ReserveAddresses addresses (elems (ClientID (Options_ in_)))
        (IaNaIDs (Options_ in_)) = (associations, None) ->
      BuildResponseRun
        (Returned
           (Some (MakeMsgAdvertise b (TransactionID in_) serverDUID
                    (elems (ClientID (Options_ in_)))
                    (ClientArchType (Options_ in_)) associations bootFileURL
                    (GetPreference configuration)
                    (GetRecursiveDNS configuration)), None),
         [Invoked (CallGetBootURL (elems id) (ClientArchType (Options_ in_)));
          Invoked (CallReserveAddresses (elems (ClientID (Options_ in_)))
                     (IaNaIDs (Options_ in_)));
          Invoked CallGetPreference; Invoked CallGetRecursiveDNS])
  | RunRequest id bootFileURL associations err :
      Type_ in_ = MsgRequest ->
      ExtractLLAddressOrID (ClientID (Options_ in_)) = Returned id ->
      GetBootURL configuration (elems id) (ClientArchType (Options_ in_)) =
        (bootFileURL, None) ->
      ReserveAddresses addresses (elems (ClientID (Options_ in_)))
        (IaNaIDs (Options_ in_)) = (associations, err) ->
      err <> None \/
        iasWithoutAddesses associations (IaNaIDs (Options_ in_)) = [] ->
      BuildResponseRun
        (Returned
           (Some {| Type_ := MsgReply; TransactionID := TransactionID in_;
                    Options_ :=
                      replyOptions b serverDUID
                        (elems (ClientID (Options_ in_)))
                        (ClientArchType (Options_ in_)) associations
                        (iasWithoutAddesses associations
                           (IaNaIDs (Options_ in_)))
                        (default ""%string err) bootFileURL
                        (GetRecursiveDNS configuration) |}, err),
         [Invoked (CallGetBootURL (elems id) (ClientArchType (Options_ in_)));
          Invoked (CallReserveAddresses (elems (ClientID (Options_ in_)))
                     (IaNaIDs (Options_ in_)));
          Invoked CallGetRecursiveDNS])
  | RunRequestNilError id bootFileURL associations :
      Type_ in_ = MsgRequest ->
      ExtractLLAddressOrID (ClientID (Options_ in_)) = Returned id ->
      GetBootURL configuration (elems id) (ClientArchType (Options_ in_)) =
        (bootFileURL, None) ->
      ReserveAddresses addresses (elems (ClientID (Options_ in_)))
        (IaNaIDs (Options_ in_)) = (associations, None) ->
      iasWithoutAddesses associations (IaNaIDs (Options_ in_)) <> [] ->
      BuildResponseRun
        (Panicked NilPointerDereference,
         [Invoked (CallGetBootURL (elems id) (ClientArchType (Options_ in_)));
          Invoked (CallReserveAddresses (elems (ClientID (Options_ in_)))
                     (IaNaIDs (Options_ in_)));
          Invoked CallGetRecursiveDNS])
  | RunInformationRequest id bootFileURL :
      Type_ in_ = MsgInformationRequest ->
      ExtractLLAddressOrID (ClientID (Options_ in_)) = Returned id ->
      GetBootURL configuration (elems id) (ClientArchType (Options_ in_)) =
        (bootFileURL, None) ->
      BuildResponseRun
        (Returned
           (Some (MakeMsgInformationRequestReply b (TransactionID in_)
                    serverDUID (elems (ClientID (Options_ in_)))
                    (ClientArchType (Options_ in_)) bootFileURL
                    (GetRecursiveDNS configuration)), None),
         [Invoked (CallGetBootURL (elems id) (ClientArchType (Options_ in_)));
          Invoked CallGetRecursiveDNS]).

End RunCases.

(** The calls to each collaborator. *)
Definition isConfigurationCall (e : Event) : bool :=
  match e with
  | Invoked (CallGetBootURL _ _) => true
  | Invoked CallGetPreference => true
  | Invoked CallGetRecursiveDNS => true
  | Invoked _ => false
  end.

Definition isPoolCall (e : Event) : bool :=
  match e with
  | Invoked (CallReserveAddresses _ _) => true
  | Invoked (CallReleaseAddresses _ _) => true
  | Invoked _ => false
  end.

(** The options of a packet that have a given code. *)
Definition optionsWith (code : Z) (p : Packet) : list Option :=
  List.filter (fun o => ID o =? code) (Options_ p).

(** The replies that hold a status in place of the boot information: the
    acknowledgement of a Release and the Advertise of a failed
    reservation. *)
Definition reducedReply (in_ : Packet) (err : error) : Prop :=
  Type_ in_ = MsgRelease \/ (Type_ in_ = MsgSolicit /\ err <> None).

(** ** Vocabulary for the script and the handlers *)

(** The number of line feeds of a text. *)
Fixpoint lineFeeds (s : string) : nat :=
  match s with
  | EmptyString => 0
  | String c s' => (if Ascii.eqb c (ascii_of_nat 10) then 1 else 0) + lineFeeds s'
  end.

(** The characters [url.QueryEscape] produces. *)
Definition queryChar (c : ascii) : bool :=
  negb (shouldEscape c) || Ascii.eqb c "%" || Ascii.eqb c "+".

Fixpoint allChars (P : ascii -> bool) (s : string) : bool :=
  match s with
  | EmptyString => true
  | String c s' => P c && allChars P s'
  end.

Definition isHTTPError (e : Effect) : bool :=
  match e with HTTPError _ _ => true | _ => false end.

Definition isWrite (e : Effect) : bool :=
  match e with Write _ => true | _ => false end.

Definition isBooterCall (e : Effect) : bool :=
  match e with
  | CalledBootSpec _ | CalledReadBootFile _ => true
  | _ => false
  end.

(** The request names a machine: its [mac] and [arch] parameters parse
    and the architecture is one of the two the server knows. *)
Definition namesMachine (ParseMAC : string -> list byte * error)
    (Atoi : string -> Z * error) (ArchIA32 ArchX64 : Z) (r : Request)
  : Prop :=
  snd (ParseMAC (QueryGet r "mac"%string)) = None /\
  snd (Atoi (QueryGet r "arch"%string)) = None /\
  (fst (Atoi (QueryGet r "arch"%string)) = ArchIA32 \/
   fst (Atoi (QueryGet r "arch"%string)) = ArchX64).

(** The machine a request names. *)
Definition machineOf (ParseMAC : string -> list byte * error)
    (Atoi : string -> Z * error) (r : Request) : Machine :=
  {| MAC := fst (ParseMAC (QueryGet r "mac"%string));
     Arch := fst (Atoi (QueryGet r "arch"%string)) |}.

(** The function [ipxeScript] binds to [ID] in the command line. *)
Definition fileURL (serverHost id : string) : string :=
  "http://" +:+ serverHost +:+ "/_/file?name=" +:+ QueryEscape id.

(** The concatenation of a list of texts. *)
Definition joined (l : list string) : string :=
  fold_right String.append ""%string l.

(** * Properties *)

(** ** Bytes *)

Lemma Z_of_byte_range (c : byte) : 0 <= Z_of_byte c < 256.
Proof. destruct c; vm_compute; split; congruence. Qed.

(** The value [binary.BigEndian.Uint16] computes, as arithmetic. *)
Lemma lor_shiftl_8 (hi lo : Z) :
  0 <= hi -> 0 <= lo < 256 -> Z.lor lo (Z.shiftl hi 8) = 256 * hi + lo.
Proof.
  intros Hhi Hlo.
  assert (Z.land lo (Z.shiftl hi 8) = 0) as Hdisjoint.
  { apply Z.bits_inj'. intros n Hn. rewrite Z.land_spec, Z.bits_0.
    destruct (Z.lt_ge_cases n 8) as [Hlt | Hge].
    - rewrite (Z.shiftl_spec_low hi 8 n Hlt). apply andb_false_r.
    - assert (Z.testbit lo n = false) as ->; [| reflexivity].
      destruct (Z.eq_dec lo 0) as [-> | Hnz]; [apply Z.bits_0 |].
      apply Z.bits_above_log2; [lia |].
      apply Z.lt_le_trans with 8; [| lia].
      apply Z.log2_lt_pow2; lia. }
  rewrite <- Z.lxor_lor, <- Z.add_nocarry_lxor by exact Hdisjoint.
  rewrite Z.shiftl_mul_pow2 by lia. lia.
Qed.

Lemma Uint16_duidType (s : slice) (t : Z) :
  duidType (elems s) = Some t -> Uint16 s = Returned t.
Proof.
  unfold duidType, Uint16. destruct (elems s) as [| b0 [| b1 rest]]; try discriminate.
  intros [= <-]. f_equal.
  apply lor_shiftl_8; [apply Z_of_byte_range | apply Z_of_byte_range].
Qed.

(** ** Slices *)

Lemma slice_upto_2_elems (s : slice) :
  (2 <= len s)%nat ->
  exists hd, slice_upto s 2 = Returned hd /\ duidType (elems hd) = duidType (elems s).
Proof.
  unfold len, slice_upto, cap. destruct s as [[| b0 [| b1 rest]] sp]; simpl; try lia.
  intros _. eexists. split; [reflexivity |]. reflexivity.
Qed.

Lemma slice_from_ok (s : slice) (lo : nat) :
  (lo <= len s)%nat ->
  slice_from s lo = Returned (Slice (drop lo (elems s)) (spare s)).
Proof.
  intros Hlo. unfold slice_from.
  destruct (Nat.leb_spec lo (len s)); [reflexivity | lia].
Qed.

Lemma slice_from_panics (s : slice) (lo : nat) :
  (len s < lo)%nat -> slice_from s lo = Panicked SliceBoundsOutOfRange.
Proof.
  intros Hlo. unfold slice_from.
  destruct (Nat.leb_spec lo (len s)); [lia | reflexivity].
Qed.

(** The extraction, once the tag has been read. *)
Lemma ExtractLLAddressOrID_tagged (s : slice) (t : Z) :
  duidType (elems s) = Some t ->
  ExtractLLAddressOrID s =
    if t =? 1 then slice_from s 8
    else if t =? 3 then slice_from s 4
    else slice_from s 2.
Proof.
  intros Ht. unfold ExtractLLAddressOrID.
  destruct (slice_upto_2_elems s) as (hd & -> & Hhd).
  { unfold len, duidType in *. destruct (elems s) as [| ? [| ? ?]]; simpl; try discriminate; lia. }
  simpl. rewrite (Uint16_duidType hd t) by congruence. reflexivity.
Qed.

(** ** C9 *)

(** C9. For a client-identifier payload of at least 2 bytes, identity
    extraction returns the payload without its first 8 bytes when the
    2-byte big-endian DUID type is 1 and the payload has at least 8 bytes,
    without its first 4 bytes when the type is 3 and the payload has at
    least 4 bytes, and without its first 2 bytes for any other type. *)
Theorem C9_ExtractLLAddressOrID_skips (optClientID : slice) (t : Z) :
  duidType (elems optClientID) = Some t ->
  (t = 1 -> (8 <= len optClientID)%nat ->
     ExtractLLAddressOrID optClientID =
       Returned (Slice (drop 8 (elems optClientID)) (spare optClientID))) /\
  (t = 3 -> (4 <= len optClientID)%nat ->
     ExtractLLAddressOrID optClientID =
       Returned (Slice (drop 4 (elems optClientID)) (spare optClientID))) /\
  (t <> 1 -> t <> 3 ->
     ExtractLLAddressOrID optClientID =
       Returned (Slice (drop 2 (elems optClientID)) (spare optClientID))).
Proof.
  intros Ht. rewrite (ExtractLLAddressOrID_tagged _ _ Ht).
  assert (2 <= len optClientID)%nat as Hlen.
  { unfold len, duidType in *.
    destruct (elems optClientID) as [| ? [| ? ?]]; simpl; try discriminate; lia. }
  repeat split.
  - intros -> H8. simpl. by apply slice_from_ok.
  - intros -> H4. simpl. by apply slice_from_ok.
  - intros H1 H3.
    destruct (Z.eqb_spec t 1); [done |]. destruct (Z.eqb_spec t 3); [done |].
    by apply slice_from_ok.
Qed.

Lemma C9_ExtractLLAddressOrID_skips_witness :
  ExtractLLAddressOrID
    (sliceOf (map byte_of_Z [0; 1; 0; 1; 9; 9; 9; 9; 10; 11; 12; 13; 14; 15])) =
  Returned (sliceOf (map byte_of_Z [10; 11; 12; 13; 14; 15])).
Proof.
  refine (proj1 (C9_ExtractLLAddressOrID_skips
            (sliceOf (map byte_of_Z [0; 1; 0; 1; 9; 9; 9; 9; 10; 11; 12; 13; 14; 15]))
            1 _) _ _).
  - reflexivity.
  - reflexivity.
  - vm_compute. lia.
Defined.

(** ** C10 *)

Lemma ExtractLLAddressOrID_short (s : slice) :
  (len s < 2)%nat -> ExtractLLAddressOrID s = Panicked SliceBoundsOutOfRange.
Proof.
  intros Hlen. unfold ExtractLLAddressOrID, slice_upto.
  destruct (Nat.leb_spec 2 (cap s)) as [Hcap | Hcap]; [| reflexivity].
  simpl. unfold Uint16. simpl.
  unfold cap in Hcap.
  destruct (elems s ++ spare s) as [| b0 [| b1 rest]]; simpl in *; try lia.
  repeat case_match; apply slice_from_panics; lia.
Qed.

Lemma ExtractLLAddressOrID_malformed (s : slice) :
  malformedClientID s -> ExtractLLAddressOrID s = Panicked SliceBoundsOutOfRange.
Proof.
  intros [Hshort | [[Ht Hlen] | [Ht Hlen]]].
  - by apply ExtractLLAddressOrID_short.
  - rewrite (ExtractLLAddressOrID_tagged _ _ Ht). simpl. by apply slice_from_panics.
  - rewrite (ExtractLLAddressOrID_tagged _ _ Ht). simpl. by apply slice_from_panics.
Qed.

Section Dispatch.

Context `{OptionAccessors}.

(** On these three types the builder first extracts the identity, then
    asks for the boot URL and goes on only when the lookup succeeds. *)
Lemma BuildResponse_extraction_panics b in_ serverDUID p :
  needsBootURL in_ ->
  ExtractLLAddressOrID (ClientID (Options_ in_)) = Panicked p ->
  BuildResponse b in_ serverDUID = Panic p.
Proof.
  intros [Hty | [Hty | Hty]] Hex; unfold BuildResponse; rewrite Hty, Hex;
    reflexivity.
Qed.

Lemma BuildResponse_lookup b in_ serverDUID id :
  needsBootURL in_ ->
  ExtractLLAddressOrID (ClientID (Options_ in_)) = Returned id ->
  exists k,
    BuildResponse b in_ serverDUID =
      Vis (CallGetBootURL (elems id) (ClientArchType (Options_ in_))) k /\
    forall bootFileURL msg,
      k (bootFileURL, Some msg) = Ret (None, Some msg).
Proof.
  intros [Hty | [Hty | Hty]] Hex; unfold BuildResponse; rewrite Hty, Hex;
    simpl; (eexists; split; [reflexivity |]); intros; reflexivity.
Qed.

End Dispatch.

(** C10. Identity extraction is not total: on a client-identifier payload
    shorter than 2 bytes, on a DUID of type 1 shorter than 8 bytes and on
    a DUID of type 3 shorter than 4 bytes it panics with an out-of-range
    access, and so does [BuildResponse] on every Solicit, Request and
    InformationRequest that carries such an identifier, before it calls
    a collaborator. *)
Theorem C10_malformed_client_identifier_panics (optClientID : slice) :
  malformedClientID optClientID ->
  ExtractLLAddressOrID optClientID = Panicked SliceBoundsOutOfRange /\
  forall (acc : OptionAccessors) b in_ serverDUID configuration addresses,
    needsBootURL in_ ->
    ClientID (Options_ in_) = optClientID ->
    run configuration addresses (BuildResponse b in_ serverDUID) =
      (Panicked SliceBoundsOutOfRange, []).
Proof.
  intros Hbad. pose proof (ExtractLLAddressOrID_malformed _ Hbad) as Hex.
  split; [exact Hex |].
  intros acc b in_ serverDUID configuration addresses Hty Hid. subst optClientID.
  by rewrite (BuildResponse_extraction_panics b in_ serverDUID _ Hty Hex).
Qed.

Lemma C10_malformed_client_identifier_panics_witness :
  ExtractLLAddressOrID (sliceOf (map byte_of_Z [0; 1; 0; 1; 9; 9])) =
    Panicked SliceBoundsOutOfRange /\
  run exampleConfiguration (poolGranting [] None None)
    (BuildResponse (H := exampleAccessors) exampleBuilder
       {| Type_ := MsgRequest; TransactionID := [];
          Options_ := [MakeOption OptClientID (map byte_of_Z [0; 1; 0; 1; 9; 9])] |}
       exampleServerDUID) =
    (Panicked SliceBoundsOutOfRange, []).
Proof.
  destruct (C10_malformed_client_identifier_panics
              (sliceOf (map byte_of_Z [0; 1; 0; 1; 9; 9]))) as [Hex Hrun].
  - right. left. split; [reflexivity | vm_compute; lia].
  - split; [exact Hex |].
    apply (Hrun exampleAccessors); [right; left; reflexivity | reflexivity].
Defined.

(** ** C2 *)

(** As long as four times the preferred lifetime fits in 32 bits, the
    timers are ordered. *)
Lemma timers_ordered_without_overflow (b : PacketBuilder) :
  0 <= PreferredLifetime b < 2 ^ 30 ->
  PreferredLifetime b <= ValidLifetime b ->
  calculateT1 b <= calculateT2 b <= ValidLifetime b.
Proof.
  intros Hp Hv. unfold calculateT1, calculateT2, uint32_max.
  rewrite Z.mod_small by lia.
  split.
  - apply Z.div_le_lower_bound; [lia |].
    pose proof (Z.mul_div_le (PreferredLifetime b) 2). lia.
  - apply Z.le_trans with (PreferredLifetime b); [| exact Hv].
    apply Z.div_le_upper_bound; lia.
Qed.

(** C2. The multiplication by 4 is done in 32 bits and wraps around
    before the division: with a preferred (and valid) lifetime of 2^30
    the builder computes T1 = 2^29 and T2 = 0, so T1 <= T2 fails, whereas
    the wide arithmetic of the claim gives T2 = 858993459. *)
Theorem C2_calculateT2_wraps_around :
  let b := MakePacketBuilder (2 ^ 30) (2 ^ 30) in
  is_uint32 (PreferredLifetime b) /\
  PreferredLifetime b <= ValidLifetime b /\
  calculateT1 b = 2 ^ 29 /\
  calculateT2 b = 0 /\
  PreferredLifetime b * 4 / 5 = 858993459 /\
  ~ (calculateT1 b <= calculateT2 b <= ValidLifetime b).
Proof.
  vm_compute. repeat split; try congruence.
  intros [Hle _]. apply Hle. reflexivity.
Qed.

(** ** C8 *)

Section Unhandled.

Context `{OptionAccessors}.

Lemma BuildResponse_unhandled b in_ serverDUID :
  ~ handled in_ -> BuildResponse b in_ serverDUID = Ret (None, None).
Proof.
  unfold handled, needsBootURL, BuildResponse. intros Hty.
  destruct (Z.eqb_spec (Type_ in_) MsgSolicit); [tauto |].
  destruct (Z.eqb_spec (Type_ in_) MsgRequest); [tauto |].
  destruct (Z.eqb_spec (Type_ in_) MsgInformationRequest); [tauto |].
  destruct (Z.eqb_spec (Type_ in_) MsgRelease); [tauto |].
  reflexivity.
Qed.

Lemma BuildResponse_release b in_ serverDUID :
  Type_ in_ = MsgRelease ->
  BuildResponse b in_ serverDUID =
    Vis (CallReleaseAddresses (elems (ClientID (Options_ in_)))
           (IaNaIDs (Options_ in_)))
      (fun _ => Ret (Some (MakeMsgReleaseReply b (TransactionID in_) serverDUID
                             (elems (ClientID (Options_ in_)))), None)).
Proof. intros Hty. unfold BuildResponse. rewrite Hty. reflexivity. Qed.

End Unhandled.

(** C8. On a message whose type is none of Solicit, Request,
    InformationRequest and Release, [BuildResponse] returns (nil, nil)
    and calls neither collaborator: the program is a bare return, and
    every run of it has an empty list of calls. *)
Theorem C8_other_types_no_reply (acc : OptionAccessors) b in_ serverDUID :
  ~ handled in_ ->
  BuildResponse b in_ serverDUID = Ret (None, None) /\
  forall configuration addresses,
    run configuration addresses (BuildResponse b in_ serverDUID) =
      (Returned (None, None), []).
Proof.
  intros Hty. rewrite (BuildResponse_unhandled b in_ serverDUID Hty).
  split; [reflexivity | intros; reflexivity].
Qed.

Lemma C8_other_types_no_reply_witness :
  run failingConfiguration (poolGranting [] (Some "pool exhausted"%string) None)
    (BuildResponse (H := exampleAccessors) exampleBuilder
       (exampleMessage MsgAdvertise 16 [iaA1]) exampleServerDUID) =
    (Returned (None, None), []).
Proof.
  apply (C8_other_types_no_reply exampleAccessors).
  unfold handled, needsBootURL. simpl. vm_compute. intuition congruence.
Defined.

(** ** C7 *)

(** C7. On a Solicit, Request or InformationRequest, when the boot URL
    lookup returns an error, [BuildResponse] returns the nil packet and
    that error; the lookup is the only call made. *)
Theorem C7_lookup_failure_aborts (acc : OptionAccessors) b in_ serverDUID
    configuration addresses id bootFileURL msg :
  needsBootURL in_ ->
  ExtractLLAddressOrID (ClientID (Options_ in_)) = Returned id ->
  GetBootURL configuration (elems id) (ClientArchType (Options_ in_)) =
    (bootFileURL, Some msg) ->
  run configuration addresses (BuildResponse b in_ serverDUID) =
    (Returned (None, Some msg),
     [Invoked (CallGetBootURL (elems id) (ClientArchType (Options_ in_)))]).
Proof.
  intros Hty Hex Hurl.
  destruct (BuildResponse_lookup b in_ serverDUID id Hty Hex) as (k & -> & Hk).
  simpl. rewrite Hurl, Hk. reflexivity.
Qed.

Lemma C7_lookup_failure_aborts_witness :
  run failingConfiguration (poolGranting [] None None)
    (BuildResponse (H := exampleAccessors) exampleBuilder
       (exampleMessage MsgInformationRequest 16 []) exampleServerDUID) =
    (Returned (None, Some "no boot configuration"%string),
     [Invoked (CallGetBootURL (map byte_of_Z [2; 0; 0; 0; 0; 1]) 16)]).
Proof.
  apply (C7_lookup_failure_aborts exampleAccessors exampleBuilder
           (exampleMessage MsgInformationRequest 16 []) exampleServerDUID
           failingConfiguration (poolGranting [] None None)
           (sliceOf (map byte_of_Z [2; 0; 0; 0; 0; 1])) []).
  - right. right. reflexivity.
  - reflexivity.
  - reflexivity.
Defined.

(** ** C5 *)

Lemma releaseStatus_payload :
  releaseStatus = PutUint16 0 ++ bytes_of_string "Release received.".
Proof. reflexivity. Qed.

(** C5. On a Release, whatever the requested associations and whatever
    the pool's release call reports, [BuildResponse] returns a nil error
    and a reply of exactly 3 options: the client identifier, the server
    identifier and a status option whose payload is the 2-byte code 0
    followed by the 17 bytes of [Release received.]. *)
Theorem C5_release_reply (acc : OptionAccessors) b in_ serverDUID
    configuration addresses :
  Type_ in_ = MsgRelease ->
  exists reply calls,
    run configuration addresses (BuildResponse b in_ serverDUID) =
      (Returned (Some reply, None), calls) /\
    Options_ reply =
      [MakeOption OptClientID (elems (ClientID (Options_ in_)));
       MakeOption OptServerID serverDUID;
       MakeOption OptStatusCode
         (PutUint16 0 ++ bytes_of_string "Release received.")] /\
    length (Options_ reply) = 3%nat /\
    length (bytes_of_string "Release received.") = 17%nat.
Proof.
  intros Hty. rewrite (BuildResponse_release b in_ serverDUID Hty).
  eexists. eexists. split; [reflexivity |].
  repeat split.
Qed.

Lemma C5_release_reply_witness :
  exists reply calls,
    run exampleConfiguration
      (poolGranting [] None (Some "no such lease"%string))
      (BuildResponse (H := exampleAccessors) exampleBuilder
         (exampleMessage MsgRelease 16 [iaA1; iaA2]) exampleServerDUID) =
      (Returned (Some reply, None), calls) /\
    length (Options_ reply) = 3%nat.
Proof.
  destruct (C5_release_reply exampleAccessors exampleBuilder
              (exampleMessage MsgRelease 16 [iaA1; iaA2]) exampleServerDUID
              exampleConfiguration
              (poolGranting [] None (Some "no such lease"%string)))
    as (reply & calls & Hrun & _ & Hlen & _).
  - reflexivity.
  - exists reply, calls. split; [exact Hrun | exact Hlen].
Defined.

(** ** The options a builder assembles *)

Lemma fold_AddOption {A : Type} (f : A -> Option) (l : list A) (o : Options) :
  fold_left (fun retOptions x => AddOption (f x) retOptions) l o = o ++ map f l.
Proof.
  revert o. induction l as [| x l IH]; intros o; simpl.
  - by rewrite app_nil_r.
  - rewrite IH. unfold AddOption. by rewrite <- app_assoc.
Qed.

Lemma forRange_status b (message : string) (ias : list (list byte)) (o : Options) :
  forRange (fun retOptions ia =>
              message ← Error (Some message);
              mret (AddOption (statusEntry b ia message) retOptions)) ias o =
  Returned (o ++ map (fun ia => statusEntry b ia message) ias).
Proof.
  revert o. induction ias as [| ia ias IH]; intros o; simpl.
  - by rewrite app_nil_r.
  - rewrite IH. unfold AddOption. by rewrite <- app_assoc.
Qed.

Lemma forRange_nil_error b (ia : list byte) (ias : list (list byte)) (o : Options) :
  forRange (fun retOptions ia =>
              message ← Error None;
              mret (AddOption (statusEntry b ia message) retOptions))
    (ia :: ias) o =
  Panicked NilPointerDereference.
Proof. reflexivity. Qed.

Lemma MakeMsgAdvertise_options b transactionID serverDUID clientID
    clientArchType associations bootFileURL preference dnsServers :
  Options_ (MakeMsgAdvertise b transactionID serverDUID clientID clientArchType
              associations bootFileURL preference dnsServers) =
  [MakeOption OptClientID clientID] ++
  map (addressEntry b) associations ++
  [MakeOption OptServerID serverDUID] ++
  vendorClassOption clientArchType ++
  [MakeOption OptBootfileURL bootFileURL] ++
  preferenceOption preference ++
  dnsOption dnsServers.
Proof.
  unfold MakeMsgAdvertise, vendorClassOption, preferenceOption, dnsOption,
    optionally.
  cbn [Options_]. rewrite fold_AddOption. unfold AddOption.
  destruct (16 =? clientArchType), preference, (0 <? length dnsServers)%nat;
    rewrite <- ?app_assoc; simpl; rewrite ?app_nil_r; reflexivity.
Qed.

Lemma MakeMsgReply_error b transactionID serverDUID clientID clientArchType
    associations iasWithoutAddresses bootFileURL dnsServers message :
  MakeMsgReply b transactionID serverDUID clientID clientArchType associations
    iasWithoutAddresses bootFileURL dnsServers (Some message) =
  Returned {| Type_ := MsgReply; TransactionID := transactionID;
              Options_ := replyOptions b serverDUID clientID clientArchType
                            associations iasWithoutAddresses message
                            bootFileURL dnsServers |}.
Proof.
  unfold MakeMsgReply, replyOptions, vendorClassOption, dnsOption, optionally.
  rewrite fold_AddOption, forRange_status. unfold AddOption.
  destruct (16 =? clientArchType), (0 <? length dnsServers)%nat;
    cbn [mbind Outcome_bind mret Outcome_ret]; do 2 f_equal;
    rewrite <- ?app_assoc; simpl; rewrite ?app_nil_r; reflexivity.
Qed.

Lemma MakeMsgReply_all_granted b transactionID serverDUID clientID
    clientArchType associations bootFileURL dnsServers err message :
  MakeMsgReply b transactionID serverDUID clientID clientArchType associations
    [] bootFileURL dnsServers err =
  Returned {| Type_ := MsgReply; TransactionID := transactionID;
              Options_ := replyOptions b serverDUID clientID clientArchType
                            associations [] message bootFileURL dnsServers |}.
Proof.
  unfold MakeMsgReply, replyOptions, vendorClassOption, dnsOption, optionally.
  rewrite fold_AddOption. unfold AddOption.
  destruct (16 =? clientArchType), (0 <? length dnsServers)%nat;
    cbn [mbind Outcome_bind mret Outcome_ret forRange]; do 2 f_equal;
    rewrite <- ?app_assoc; simpl; rewrite ?app_nil_r; reflexivity.
Qed.

(** Without an error value, the first association without an address
    stops the builder. *)
Lemma MakeMsgReply_nil_error b transactionID serverDUID clientID
    clientArchType associations ia ias bootFileURL dnsServers :
  MakeMsgReply b transactionID serverDUID clientID clientArchType associations
    (ia :: ias) bootFileURL dnsServers None =
  Panicked NilPointerDereference.
Proof. reflexivity. Qed.

Lemma MakeMsgInformationRequestReply_options b transactionID serverDUID
    clientID clientArchType bootFileURL dnsServers :
  Options_ (MakeMsgInformationRequestReply b transactionID serverDUID clientID
              clientArchType bootFileURL dnsServers) =
  [MakeOption OptClientID clientID] ++
  [MakeOption OptServerID serverDUID] ++
  vendorClassOption clientArchType ++
  [MakeOption OptBootfileURL bootFileURL] ++
  dnsOption dnsServers.
Proof.
  unfold MakeMsgInformationRequestReply, vendorClassOption, dnsOption,
    optionally, AddOption.
  destruct (16 =? clientArchType), (0 <? length dnsServers)%nat; reflexivity.
Qed.


Lemma MakeMsgAdvertiseWithNoAddrsAvailable_nil_error b transactionID
    serverDUID clientID :
  MakeMsgAdvertiseWithNoAddrsAvailable b transactionID serverDUID clientID
    None = Panicked NilPointerDereference.
Proof. reflexivity. Qed.


(** ** C4 *)


(** ** The runs of the builder *)

Section Runs.

Context `{OptionAccessors}.

Variables (b : PacketBuilder) (in_ : Packet) (serverDUID : list byte).
Variables (configuration : BootConfiguration) (addresses : AddressPool).

Let clientID := elems (ClientID (Options_ in_)).
Let arch := ClientArchType (Options_ in_).
Let ias := IaNaIDs (Options_ in_).

Lemma run_extraction_panics p :
  needsBootURL in_ ->
  ExtractLLAddressOrID (ClientID (Options_ in_)) = Panicked p ->
  run configuration addresses (BuildResponse b in_ serverDUID) =
    (Panicked p, []).
Proof.
  intros Hty Hex.
  by rewrite (BuildResponse_extraction_panics b in_ serverDUID p Hty Hex).
Qed.

Lemma run_lookup_fails id bootFileURL msg :
  needsBootURL in_ ->
  ExtractLLAddressOrID (ClientID (Options_ in_)) = Returned id ->
  GetBootURL configuration (elems id) arch = (bootFileURL, Some msg) ->
  run configuration addresses (BuildResponse b in_ serverDUID) =
    (Returned (None, Some msg), [Invoked (CallGetBootURL (elems id) arch)]).
Proof.
  intros Hty Hex Hurl.
  destruct (BuildResponse_lookup b in_ serverDUID id Hty Hex) as (k & -> & Hk).
  simpl. fold arch. rewrite Hurl, Hk. reflexivity.
Qed.

Lemma run_Solicit id bootFileURL associations err :
  Type_ in_ = MsgSolicit ->
  ExtractLLAddressOrID (ClientID (Options_ in_)) = Returned id ->
  GetBootURL configuration (elems id) arch = (bootFileURL, None) ->
  ReserveAddresses addresses clientID ias = (associations, err) ->
  run configuration addresses (BuildResponse b in_ serverDUID) =
    match err with
    | Some msg =>
        (Returned
           (Some {| Type_ := MsgAdvertise; TransactionID := TransactionID in_;
                    Options_ := [MakeOption OptClientID clientID;
                                 MakeOption OptServerID serverDUID;
                                 MakeStatusOption 2 msg] |}, err),
         [Invoked (CallGetBootURL (elems id) arch);
          Invoked (CallReserveAddresses clientID ias)])
    | None =>
        (Returned
           (Some (MakeMsgAdvertise b (TransactionID in_) serverDUID clientID
                    arch associations bootFileURL
                    (GetPreference configuration)
                    (GetRecursiveDNS configuration)), None),
         [Invoked (CallGetBootURL (elems id) arch);
          Invoked (CallReserveAddresses clientID ias);
          Invoked CallGetPreference; Invoked CallGetRecursiveDNS])
    end.
Proof.
  intros Hty Hex Hurl Hres. unfold BuildResponse. rewrite Hty, Hex. simpl.
  fold arch clientID ias. rewrite Hurl. simpl. rewrite Hres.
  destruct err; reflexivity.
Qed.

Lemma run_Request id bootFileURL associations err :
  Type_ in_ = MsgRequest ->
  ExtractLLAddressOrID (ClientID (Options_ in_)) = Returned id ->
  GetBootURL configuration (elems id) arch = (bootFileURL, None) ->
  ReserveAddresses addresses clientID ias = (associations, err) ->
  run configuration addresses (BuildResponse b in_ serverDUID) =
    (p ← MakeMsgReply b (TransactionID in_) serverDUID clientID arch
           associations (iasWithoutAddesses associations ias) bootFileURL
           (GetRecursiveDNS configuration) err;
     mret (Some p, err),
     [Invoked (CallGetBootURL (elems id) arch);
      Invoked (CallReserveAddresses clientID ias);
      Invoked CallGetRecursiveDNS]).
Proof.
  intros Hty Hex Hurl Hres. unfold BuildResponse. rewrite Hty, Hex. simpl.
  fold arch clientID ias. rewrite Hurl. simpl. rewrite Hres. simpl.
  destruct (MakeMsgReply _ _ _ _ _ _ _ _ _ _); reflexivity.
Qed.

Lemma run_InformationRequest id bootFileURL :
  Type_ in_ = MsgInformationRequest ->
  ExtractLLAddressOrID (ClientID (Options_ in_)) = Returned id ->
  GetBootURL configuration (elems id) arch = (bootFileURL, None) ->
  run configuration addresses (BuildResponse b in_ serverDUID) =
    (Returned
       (Some (MakeMsgInformationRequestReply b (TransactionID in_) serverDUID
                clientID arch bootFileURL (GetRecursiveDNS configuration)),
        None),
     [Invoked (CallGetBootURL (elems id) arch); Invoked CallGetRecursiveDNS]).
Proof.
  intros Hty Hex Hurl. unfold BuildResponse. rewrite Hty, Hex. simpl.
  fold arch clientID ias. rewrite Hurl. reflexivity.
Qed.

Lemma run_Release :
  Type_ in_ = MsgRelease ->
  run configuration addresses (BuildResponse b in_ serverDUID) =
    (Returned
       (Some (MakeMsgReleaseReply b (TransactionID in_) serverDUID clientID),
        None),
     [Invoked (CallReleaseAddresses clientID ias)]).
Proof.
  intros Hty. by rewrite (BuildResponse_release b in_ serverDUID Hty).
Qed.

End Runs.

(** ** C6 *)

Lemma vendorClass_in_address_entries b associations :
  existsb isVendorClass (map (addressEntry b) associations) = false.
Proof. induction associations; simpl; auto. Qed.

Lemma vendorClass_in_status_entries b message ias :
  existsb isVendorClass (map (fun ia => statusEntry b ia message) ias) = false.
Proof. induction ias; simpl; auto. Qed.

Lemma vendorClass_in_vendorClassOption clientArchType :
  existsb isVendorClass (vendorClassOption clientArchType) =
    (16 =? clientArchType).
Proof. unfold vendorClassOption. by destruct (16 =? clientArchType). Qed.

Lemma vendorClass_in_dnsOption dnsServers :
  existsb isVendorClass (dnsOption dnsServers) = false.
Proof. unfold dnsOption. by destruct (0 <? length dnsServers)%nat. Qed.

Lemma vendorClass_in_preferenceOption preference :
  existsb isVendorClass (preferenceOption preference) = false.
Proof. by destruct preference. Qed.

Lemma vendorClass_payload clientArchType o :
  In o (vendorClassOption clientArchType) -> Value o = vendorClassHTTPClient.
Proof.
  unfold vendorClassOption. destruct (16 =? clientArchType); simpl; [| tauto].
  intros [<- | []]. reflexivity.
Qed.

Ltac vendor_scan :=
  rewrite ?existsb_app, ?vendorClass_in_address_entries,
    ?vendorClass_in_status_entries, ?vendorClass_in_vendorClassOption,
    ?vendorClass_in_dnsOption, ?vendorClass_in_preferenceOption;
  simpl; rewrite ?orb_false_r; try reflexivity.

Lemma hasVendorClass_Advertise b transactionID serverDUID clientID
    clientArchType associations bootFileURL preference dnsServers :
  hasOption OptVendorClass
    (MakeMsgAdvertise b transactionID serverDUID clientID clientArchType
       associations bootFileURL preference dnsServers) =
  (16 =? clientArchType).
Proof.
  unfold hasOption. rewrite MakeMsgAdvertise_options.
  change (fun o => ID o =? OptVendorClass) with isVendorClass. vendor_scan.
Qed.

Lemma hasVendorClass_replyOptions b serverDUID clientID clientArchType
    associations iasWithoutAddresses message bootFileURL dnsServers :
  existsb isVendorClass
    (replyOptions b serverDUID clientID clientArchType associations
       iasWithoutAddresses message bootFileURL dnsServers) =
  (16 =? clientArchType).
Proof. unfold replyOptions. vendor_scan. Qed.

Lemma hasVendorClass_InformationRequestReply b transactionID serverDUID
    clientID clientArchType bootFileURL dnsServers :
  hasOption OptVendorClass
    (MakeMsgInformationRequestReply b transactionID serverDUID clientID
       clientArchType bootFileURL dnsServers) =
  (16 =? clientArchType).
Proof.
  unfold hasOption. rewrite MakeMsgInformationRequestReply_options.
  change (fun o => ID o =? OptVendorClass) with isVendorClass. vendor_scan.
Qed.

(** An option of one of the full replies that has the vendor-class code
    is the one the builder adds for an HTTP client. *)
Lemma vendorClass_only_HTTPClient b clientArchType associations ias message
    (fixed : list Option) dnsServers preference o :
  Forall (fun x => ID x <> OptVendorClass) fixed ->
  In o (fixed ++ map (addressEntry b) associations ++
        map (fun ia => statusEntry b ia message) ias ++
        vendorClassOption clientArchType ++
        preferenceOption preference ++ dnsOption dnsServers) ->
  ID o = OptVendorClass -> Value o = vendorClassHTTPClient.
Proof.
  intros Hfixed Hin Hid. rewrite !in_app_iff, !in_map_iff in Hin.
  destruct Hin as [Hin | [(a & <- & _) | [(ia & <- & _) | [Hin | [Hin | Hin]]]]];
    try discriminate Hid.
  - rewrite Forall_forall in Hfixed. by destruct (Hfixed o (proj2 (list_elem_of_In _ _) Hin)).
  - by eapply vendorClass_payload.
  - destruct preference; simpl in Hin; [| tauto].
    destruct Hin as [<- | []]. discriminate Hid.
  - unfold dnsOption in Hin. destruct (0 <? length dnsServers)%nat; simpl in Hin; [| tauto].
    destruct Hin as [<- | []]. discriminate Hid.
Qed.

Lemma vendorClass_payload_text :
  vendorClassHTTPClient =
    replicate 4 x00 ++ PutUint16 10 ++ bytes_of_string "HTTPClient".
Proof. reflexivity. Qed.

Ltac types_differ :=
  unfold MsgSolicit, MsgRequest, MsgInformationRequest, MsgRelease in *; lia.

Lemma handled_dec in_ : handled in_ \/ ~ handled in_.
Proof.
  unfold handled, needsBootURL.
  destruct (Z.eq_dec (Type_ in_) MsgSolicit); [tauto |].
  destruct (Z.eq_dec (Type_ in_) MsgRequest); [tauto |].
  destruct (Z.eq_dec (Type_ in_) MsgInformationRequest); [tauto |].
  destruct (Z.eq_dec (Type_ in_) MsgRelease); tauto.
Qed.

(** The replies [BuildResponse] can return. *)
Lemma BuildResponse_reply_inv (acc : OptionAccessors) b in_ serverDUID
    configuration addresses reply err calls :
  run configuration addresses (BuildResponse b in_ serverDUID) =
    (Returned (Some reply, err), calls) ->
  let clientID := elems (ClientID (Options_ in_)) in
  let arch := ClientArchType (Options_ in_) in
  (Type_ in_ = MsgRelease /\ err = None /\
   reply = MakeMsgReleaseReply b (TransactionID in_) serverDUID clientID) \/
  (Type_ in_ = MsgSolicit /\ exists msg, err = Some msg /\
   Options_ reply = [MakeOption OptClientID clientID;
                     MakeOption OptServerID serverDUID;
                     MakeStatusOption 2 msg]) \/
  (Type_ in_ = MsgSolicit /\ err = None /\
   exists associations bootFileURL preference dnsServers,
     reply = MakeMsgAdvertise b (TransactionID in_) serverDUID clientID arch
               associations bootFileURL preference dnsServers) \/
  (Type_ in_ = MsgRequest /\
   exists associations missing message bootFileURL dnsServers,
     Options_ reply = replyOptions b serverDUID clientID arch associations
                        missing message bootFileURL dnsServers) \/
  (Type_ in_ = MsgInformationRequest /\ err = None /\
   exists bootFileURL dnsServers,
     reply = MakeMsgInformationRequestReply b (TransactionID in_) serverDUID
               clientID arch bootFileURL dnsServers).
Proof.
  intros Hrun clientID arch.
  destruct (handled_dec in_) as [[Hty | Hrel] | Hun].
  - destruct (ExtractLLAddressOrID (ClientID (Options_ in_))) as [id | p] eqn:Hex.
    2: { rewrite (run_extraction_panics b in_ serverDUID configuration
                    addresses p Hty Hex) in Hrun. discriminate Hrun. }
    destruct (GetBootURL configuration (elems id) arch)
      as [bootFileURL [msg |]] eqn:Hurl.
    { rewrite (run_lookup_fails b in_ serverDUID configuration addresses
                 id _ _ Hty Hex Hurl) in Hrun. discriminate Hrun. }
    destruct (ReserveAddresses addresses clientID (IaNaIDs (Options_ in_)))
      as [associations err'] eqn:Hres.
    destruct Hty as [Hty | [Hty | Hty]].
    + rewrite (run_Solicit b in_ serverDUID configuration addresses
                 id _ _ _ Hty Hex Hurl Hres) in Hrun.
      destruct err' as [msg |]; injection Hrun as <- <- <-.
      * right. left. split; [done |]. by exists msg.
      * right. right. left. repeat split; try done. by repeat eexists.
    + rewrite (run_Request b in_ serverDUID configuration addresses
                 id _ _ _ Hty Hex Hurl Hres) in Hrun.
      right. right. right. left. split; [done |].
      destruct err' as [msg |].
      * rewrite MakeMsgReply_error in Hrun. injection Hrun as <- <- <-.
        by repeat eexists.
      * destruct (iasWithoutAddesses associations (IaNaIDs (Options_ in_)))
          eqn:Hmissing.
        -- rewrite (MakeMsgReply_all_granted _ _ _ _ _ _ _ _ _ ""%string) in Hrun.
           injection Hrun as <- <- <-. by repeat eexists.
        -- rewrite MakeMsgReply_nil_error in Hrun. discriminate Hrun.
    + rewrite (run_InformationRequest b in_ serverDUID configuration addresses
                 id _ Hty Hex Hurl) in Hrun.
      injection Hrun as <- <- <-.
      right. right. right. right. repeat split; try done. by repeat eexists.
  - rewrite (run_Release b in_ serverDUID configuration addresses Hrel) in Hrun.
    injection Hrun as <- <- <-. left. by repeat split.
  - rewrite (BuildResponse_unhandled b in_ serverDUID Hun) in Hrun.
    discriminate Hrun.
Qed.

(** C6, as the code has it. When [BuildResponse] returns a reply, the
    reply holds a vendor-class option if and only if the architecture type
    of the request is 0x10 and the reply is a full one, that is, neither
    the acknowledgement of a Release nor the Advertise that reports a
    failed reservation; a vendor-class option of a reply has the payload
    of 4 zero bytes followed by one item of length 10, [HTTPClient]. *)
Theorem C6_vendor_class_iff_HTTPClient (acc : OptionAccessors) b in_
    serverDUID configuration addresses reply err calls :
  run configuration addresses (BuildResponse b in_ serverDUID) =
    (Returned (Some reply, err), calls) ->
  (hasOption OptVendorClass reply = true <->
     ClientArchType (Options_ in_) = 16 /\
     Type_ in_ <> MsgRelease /\
     ~ (Type_ in_ = MsgSolicit /\ err <> None)) /\
  (forall o, In o (Options_ reply) -> ID o = OptVendorClass ->
     Value o = vendorClassHTTPClient) /\
  vendorClassHTTPClient =
    replicate 4 x00 ++ PutUint16 10 ++ bytes_of_string "HTTPClient".
Proof.
  intros Hrun. apply BuildResponse_reply_inv in Hrun. cbv zeta in Hrun.
  split; [| split; [| apply vendorClass_payload_text]].
  - (* presence *)
    destruct Hrun as [(Hty & -> & ->) | [(Hty & msg & -> & Hopts) |
      [(Hty & -> & a & u & p & d & ->) | [(Hty & a & m & msg & u & d & Hopts) |
       (Hty & -> & u & d & ->)]]]].
    + split; [discriminate | tauto].
    + unfold hasOption. rewrite Hopts. split; [discriminate |].
      intros (_ & _ & Hno). destruct Hno. by split.
    + rewrite hasVendorClass_Advertise, Z.eqb_eq.
      split; [intros <-; repeat split; [types_differ | tauto]
             | intros (-> & _); done].
    + unfold hasOption. rewrite Hopts.
      change (fun o => ID o =? OptVendorClass) with isVendorClass.
      rewrite hasVendorClass_replyOptions, Z.eqb_eq.
      split; [intros <-; repeat split; [types_differ | intros [Hs _]; types_differ]
             | intros (-> & _); done].
    + rewrite hasVendorClass_InformationRequestReply, Z.eqb_eq.
      split; [intros <-; repeat split; [types_differ | intros [Hs _]; types_differ]
             | intros (-> & _); done].
  - (* payload *)
    intros o Hin Hid.
    destruct Hrun as [(Hty & -> & ->) | [(Hty & msg & -> & Hopts) |
      [(Hty & -> & a & u & p & d & ->) | [(Hty & a & m & msg & u & d & Hopts) |
       (Hty & -> & u & d & ->)]]]].
    + simpl in Hin. destruct Hin as [<- | [<- | [<- | []]]]; discriminate Hid.
    + rewrite Hopts in Hin. simpl in Hin.
      destruct Hin as [<- | [<- | [<- | []]]]; discriminate Hid.
    + rewrite MakeMsgAdvertise_options in Hin.
      apply (vendorClass_only_HTTPClient b (ClientArchType (Options_ in_)) a []
               ""%string
               [MakeOption OptClientID (elems (ClientID (Options_ in_)));
                MakeOption OptServerID serverDUID; MakeOption OptBootfileURL u]
               d p o); [repeat constructor; discriminate | | exact Hid].
      rewrite !in_app_iff in *. simpl in *. tauto.
    + rewrite Hopts in Hin. unfold replyOptions in Hin.
      apply (vendorClass_only_HTTPClient b (ClientArchType (Options_ in_)) a m
               msg
               [MakeOption OptClientID (elems (ClientID (Options_ in_)));
                MakeOption OptServerID serverDUID; MakeOption OptBootfileURL u]
               d None o); [repeat constructor; discriminate | | exact Hid].
      rewrite !in_app_iff in *. simpl in *. tauto.
    + rewrite MakeMsgInformationRequestReply_options in Hin.
      apply (vendorClass_only_HTTPClient b (ClientArchType (Options_ in_)) [] []
               ""%string
               [MakeOption OptClientID (elems (ClientID (Options_ in_)));
                MakeOption OptServerID serverDUID; MakeOption OptBootfileURL u]
               d None o); [repeat constructor; discriminate | | exact Hid].
      rewrite !in_app_iff in *. simpl in *. tauto.
Qed.

(** The claim as the spec states it fails on a Release: the request
    declares the architecture type 0x10 and the acknowledgement holds no
    vendor-class option. *)
Lemma C6_release_reply_without_vendor_class :
  exists reply calls,
    run exampleConfiguration (poolGranting [] None None)
      (BuildResponse (H := exampleAccessors) exampleBuilder
         (exampleMessage MsgRelease 16 [iaA1]) exampleServerDUID) =
      (Returned (Some reply, None), calls) /\
    ClientArchType (OptionAccessors := exampleAccessors)
      (Options_ (exampleMessage MsgRelease 16 [iaA1])) = 16 /\
    ~ (hasOption OptVendorClass reply = true <->
       ClientArchType (OptionAccessors := exampleAccessors)
         (Options_ (exampleMessage MsgRelease 16 [iaA1])) = 16).
Proof.
  eexists. eexists. split; [reflexivity |]. split; [reflexivity |].
  intros [_ Hback]. specialize (Hback eq_refl). discriminate Hback.
Qed.

Lemma C6_vendor_class_iff_HTTPClient_witness :
  exists reply calls,
    run exampleConfiguration
      (poolGranting [{| IPAddress := exampleAddress; InterfaceID := iaA1 |}]
         None None)
      (BuildResponse (H := exampleAccessors) exampleBuilder
         (exampleMessage MsgSolicit 16 [iaA1]) exampleServerDUID) =
      (Returned (Some reply, None), calls) /\
    hasOption OptVendorClass reply = true.
Proof.
  eexists. eexists. split; [reflexivity |].
  refine (proj2 (proj1 (C6_vendor_class_iff_HTTPClient exampleAccessors
                          exampleBuilder (exampleMessage MsgSolicit 16 [iaA1])
                          exampleServerDUID exampleConfiguration
                          (poolGranting
                             [{| IPAddress := exampleAddress;
                                 InterfaceID := iaA1 |}] None None)
                          _ None _ eq_refl)) _).
  split; [reflexivity |]. split; [discriminate |]. intros [_ Hne]. by apply Hne.
Defined.

(** ** Associations without an address *)

Lemma iasWithAddresses_lookup (associations : list IdentityAssociation)
    (m : gmap Z bool) (h : Z) :
  fold_left (fun (m : gmap Z bool) association =>
               <[calculateIAIDHash (InterfaceID association) := true]> m)
    associations m !! h =
  if existsb (fun a => calculateIAIDHash a =? h) (granted associations)
  then Some true else m !! h.
Proof.
  revert m. induction associations as [| a l IH]; intros m; simpl; [done |].
  rewrite IH.
  destruct (existsb _ (granted l)); [by rewrite orb_true_r |].
  rewrite orb_false_r.
  destruct (Z.eqb_spec (calculateIAIDHash (InterfaceID a)) h) as [-> | Hne].
  - by rewrite lookup_insert_eq.
  - by rewrite lookup_insert_ne.
Qed.

(** The function is a filter on the requested identifiers, by hash. *)
Lemma iasWithoutAddesses_filter associations allIAs :
  iasWithoutAddesses associations allIAs =
    List.filter (fun ia => negb (hashGranted associations ia)) allIAs.
Proof.
  unfold iasWithoutAddesses.
  assert (forall ret : list (list byte),
            fold_left (fun ret ia =>
                         match fold_left (fun (m : gmap Z bool) association =>
                                 <[calculateIAIDHash (InterfaceID association) := true]> m)
                                 associations ∅ !! calculateIAIDHash ia with
                         | Some _ => ret
                         | None => ret ++ [ia]
                         end) allIAs ret =
            ret ++ List.filter (fun ia => negb (hashGranted associations ia)) allIAs)
    as Hloop.
  { induction allIAs as [| ia l IH]; intros ret; simpl.
    - by rewrite app_nil_r.
    - rewrite IH, iasWithAddresses_lookup, lookup_empty. unfold hashGranted.
      destruct (existsb _ (granted associations)); simpl; [done |].
      by rewrite <- app_assoc. }
  apply (Hloop []).
Qed.

Lemma hashGranted_of_granted associations ia :
  In ia (granted associations) -> hashGranted associations ia = true.
Proof.
  intros Hin. unfold hashGranted. apply existsb_exists.
  exists ia. split; [exact Hin | apply Z.eqb_refl].
Qed.

Lemma iasWithoutAddesses_In associations allIAs ia :
  In ia (iasWithoutAddesses associations allIAs) <->
  In ia allIAs /\ hashGranted associations ia = false.
Proof.
  rewrite iasWithoutAddesses_filter, filter_In, negb_true_iff. reflexivity.
Qed.

(** ** The association identifiers of a Reply *)

Lemma length_field n bs : length (field n bs) = n.
Proof.
  unfold field. rewrite length_take, length_app, length_replicate. lia.
Qed.

Lemma field_of_length n bs : length bs = n -> field n bs = bs.
Proof. intros <-. unfold field. apply take_app_length. Qed.

Lemma take_4_IaNa iaid t1 t2 o :
  take 4 (Value (MakeIaNaOption iaid t1 t2 o)) = field 4 iaid.
Proof. simpl. apply take_app_length'. by rewrite length_field. Qed.

Lemma IaNaIDs_of_entries {A : Type} (f : A -> Option) (g : A -> list byte)
    (l : list A) :
  (forall x, ID (f x) = OptIaNa) ->
  (forall x, take 4 (Value (f x)) = field 4 (g x)) ->
  map (fun o => take 4 (Value o))
    (List.filter (fun o => ID o =? OptIaNa) (map f l)) =
  map (field 4) (map g l).
Proof.
  intros Hid Hval. induction l as [| x l IH]; simpl; [done |].
  rewrite Hid. simpl. by rewrite Hval, IH.
Qed.

Lemma replyIaNaIDs_replyOptions reply b serverDUID clientID clientArchType
    associations missing message bootFileURL dnsServers :
  Options_ reply = replyOptions b serverDUID clientID clientArchType
                     associations missing message bootFileURL dnsServers ->
  replyIaNaIDs reply =
    map (field 4) (granted associations) ++ map (field 4) missing.
Proof.
  intros Hopts. unfold replyIaNaIDs. rewrite Hopts. unfold replyOptions.
  rewrite !List.filter_app, !map_app.
  rewrite (IaNaIDs_of_entries (addressEntry b) InterfaceID)
    by (intros; first [reflexivity | apply take_4_IaNa]).
  rewrite (IaNaIDs_of_entries (fun ia => statusEntry b ia message) id)
    by (intros; first [reflexivity | apply take_4_IaNa]).
  rewrite map_id.
  unfold vendorClassOption, dnsOption, optionally.
  destruct (16 =? clientArchType), (0 <? length dnsServers)%nat; simpl;
    by rewrite app_nil_r.
Qed.

(** ** The hash on identifiers of 4 bytes

    [calculateIAIDHash] is 64-bit FNV-1a. On the 4-byte identifiers of the
    wire format it is injective: xoring a byte in changes a value by less
    than 256, and no combination of three such changes, each multiplied
    by its power of the prime, vanishes modulo 2^64. *)

Lemma Z_of_byte_inj (c c' : byte) : Z_of_byte c = Z_of_byte c' -> c = c'.
Proof.
  unfold Z_of_byte. intros Heq. apply N2Z.inj in Heq.
  pose proof (Byte.of_to_N c) as Hc. pose proof (Byte.of_to_N c') as Hc'.
  rewrite Heq in Hc. congruence.
Qed.

Lemma lxor_byte_high (h : Z) (c : byte) :
  0 <= h ->
  0 <= Z.lxor h (Z_of_byte c) /\ Z.lxor h (Z_of_byte c) / 256 = h / 256.
Proof.
  intros Hh. pose proof (Z_of_byte_range c) as Hc. split.
  - apply Z.lxor_nonneg. split; intros _; lia.
  - change 256 with (2 ^ 8). rewrite <- !Z.shiftr_div_pow2 by lia.
    rewrite Z.shiftr_lxor.
    rewrite (Z.shiftr_div_pow2 (Z_of_byte c)) by lia.
    rewrite (Z.div_small (Z_of_byte c)) by (change (2 ^ 8) with 256; lia).
    apply Z.lxor_0_r.
Qed.

Lemma lxor_byte_near (h : Z) (c : byte) :
  0 <= h -> -255 <= Z.lxor h (Z_of_byte c) - h <= 255.
Proof.
  intros Hh. destruct (lxor_byte_high h c Hh) as [Hpos Hdiv].
  pose proof (Z.div_mod (Z.lxor h (Z_of_byte c)) 256 ltac:(lia)) as Hy.
  pose proof (Z.div_mod h 256 ltac:(lia)) as Hx.
  pose proof (Z.mod_pos_bound (Z.lxor h (Z_of_byte c)) 256 ltac:(lia)).
  pose proof (Z.mod_pos_bound h 256 ltac:(lia)).
  rewrite Hdiv in Hy. lia.
Qed.

Lemma lxor_byte_cancel (h : Z) (c c' : byte) :
  Z.lxor h (Z_of_byte c) = Z.lxor h (Z_of_byte c') -> c = c'.
Proof.
  intros Heq. apply Z_of_byte_inj.
  rewrite <- (Z.lxor_0_l (Z_of_byte c)), <- (Z.lxor_0_l (Z_of_byte c')).
  rewrite <- (Z.lxor_nilpotent h), !Z.lxor_assoc. by rewrite Heq.
Qed.

Lemma lxor_byte_below (h : Z) (c : byte) :
  0 <= h < uint64_max -> 0 <= Z.lxor h (Z_of_byte c) < uint64_max.
Proof.
  intros Hh. destruct (lxor_byte_high h c ltac:(lia)) as [Hpos Hdiv].
  split; [exact Hpos |].
  unfold uint64_max in *. change (2 ^ 64) with (256 * 2 ^ 56) in *.
  pose proof (Z.div_mod (Z.lxor h (Z_of_byte c)) 256 ltac:(lia)) as Hy.
  pose proof (Z.mod_pos_bound (Z.lxor h (Z_of_byte c)) 256 ltac:(lia)).
  assert (h / 256 < 2 ^ 56) by (apply Z.div_lt_upper_bound; lia).
  rewrite Hdiv in Hy. lia.
Qed.

Lemma fnv64a_step_range (h : Z) (c : byte) :
  0 <= fnv64a_step h c < uint64_max.
Proof. unfold fnv64a_step. apply Z.mod_pos_bound. reflexivity. Qed.

(** A product by the prime, reduced modulo 2^64, as an equation. *)
Lemma fnv64a_step_eq (h : Z) (c : byte) :
  exists k, fnv64a_step h c =
              Z.lxor h (Z_of_byte c) * fnv_prime64 - uint64_max * k.
Proof.
  unfold fnv64a_step.
  exists (Z.lxor h (Z_of_byte c) * fnv_prime64 / uint64_max).
  pose proof (Z.div_mod (Z.lxor h (Z_of_byte c) * fnv_prime64) uint64_max
                ltac:(discriminate)).
  lia.
Qed.

(** The prime is odd, so a multiple of it that is a multiple of 2^64 is
    the product of the prime and a multiple of 2^64. *)
Lemma prime_cancel (u k : Z) :
  u * fnv_prime64 = uint64_max * k -> exists q, u = uint64_max * q.
Proof.
  unfold fnv_prime64, uint64_max. change (2 ^ 64) with 18446744073709551616.
  intros Hu.
  (* 1099511628211 * 14886173955864302971 = 1 + 887285111055 * 2^64 *)
  exists (k * 14886173955864302971 - 887285111055 * u). lia.
Qed.

Lemma small_combination (d1 d2 d3 e K : Z) :
  -255 <= d1 <= 255 -> -510 <= d2 <= 510 -> -510 <= d3 <= 510 ->
  -255 <= e <= 255 ->
  ((d1 * fnv_prime64 + d2) * fnv_prime64 + d3) * fnv_prime64 - e =
    uint64_max * K ->
  d1 = 0 /\ d2 = 0 /\ d3 = 0 /\ e = 0.
Proof.
  unfold fnv_prime64, uint64_max. change (2 ^ 64) with 18446744073709551616.
  intros H1 H2 H3 He Heq.
  (* modulo 2^40 the prime is 435 *)
  assert (d1 * 82312875 + d2 * 189225 + d3 * 435 - e = 0) as Hlow.
  { assert (exists m, d1 * 82312875 + d2 * 189225 + d3 * 435 - e =
                        1099511627776 * m) as [m Hm].
    { exists (16777216 * K
              - d1 * (1208925819614629174706176 + 1305 * 1099511627776 + 567675)
              - d2 * (1099511627776 + 870) - d3). lia. }
    lia. }
  assert (e = 0) as -> by lia.
  assert (d1 * 189225 + d2 * 435 + d3 = 0) as Hmid by lia.
  destruct (prime_cancel ((d1 * 1099511628211 + d2) * 1099511628211 + d3) K)
    as [q Hq].
  { unfold fnv_prime64, uint64_max.
    change (2 ^ 64) with 18446744073709551616. lia. }
  unfold uint64_max in Hq. change (2 ^ 64) with 18446744073709551616 in Hq.
  assert (870 * d1 + d2 = 0) as Hhigh.
  { assert (870 * d1 + d2 = 16777216 * (q - 65536 * d1)) by lia. lia. }
  lia.
Qed.

Lemma same_block (a a' : Z) : a / 256 = a' / 256 -> -255 <= a - a' <= 255.
Proof.
  intros Hdiv.
  pose proof (Z.div_mod a 256 ltac:(lia)) as Ha.
  pose proof (Z.div_mod a' 256 ltac:(lia)) as Ha'.
  pose proof (Z.mod_pos_bound a 256 ltac:(lia)).
  pose proof (Z.mod_pos_bound a' 256 ltac:(lia)).
  rewrite Hdiv in Ha. lia.
Qed.

(** Two values below 2^64 whose products by the prime agree modulo 2^64
    are equal. *)
Lemma prime_product_inj (y y' k k' : Z) :
  0 <= y < uint64_max -> 0 <= y' < uint64_max ->
  y * fnv_prime64 - uint64_max * k = y' * fnv_prime64 - uint64_max * k' ->
  y = y'.
Proof.
  intros Hy Hy' Heq.
  destruct (prime_cancel (y - y') (k - k')) as [q Hq]; [lia |].
  unfold uint64_max in *. change (2 ^ 64) with 18446744073709551616 in *.
  lia.
Qed.

Lemma fnv64a_step_inj (h : Z) (c c' : byte) :
  0 <= h < uint64_max -> fnv64a_step h c = fnv64a_step h c' -> c = c'.
Proof.
  intros Hh Heq.
  destruct (fnv64a_step_eq h c) as [k E], (fnv64a_step_eq h c') as [k' E'].
  apply (lxor_byte_cancel h).
  apply (prime_product_inj _ _ k k');
    [by apply lxor_byte_below | by apply lxor_byte_below | congruence].
Qed.

Lemma calculateIAIDHash_4 (c1 c2 c3 c4 : byte) :
  calculateIAIDHash [c1; c2; c3; c4] =
    fnv64a_step
      (fnv64a_step (fnv64a_step (fnv64a_step fnv_offset64 c1) c2) c3) c4.
Proof. reflexivity. Qed.

Lemma fnv_offset64_range : 0 <= fnv_offset64 < uint64_max.
Proof. split; [discriminate | reflexivity]. Qed.

Lemma fnv64a_chain_inj (c1 c2 c3 c4 c1' c2' c3' c4' : byte) :
  fnv64a_step
    (fnv64a_step (fnv64a_step (fnv64a_step fnv_offset64 c1) c2) c3) c4 =
  fnv64a_step
    (fnv64a_step (fnv64a_step (fnv64a_step fnv_offset64 c1') c2') c3') c4' ->
  c1 = c1' /\ c2 = c2' /\ c3 = c3' /\ c4 = c4'.
Proof.
  intros Heq.
  pose proof fnv_offset64_range as R0.
  (* the first three steps of both sides, as equations *)
  pose proof (fnv64a_step_range fnv_offset64 c1) as R1.
  pose proof (fnv64a_step_range fnv_offset64 c1') as R1'.
  destruct (fnv64a_step_eq fnv_offset64 c1) as [k1 E1].
  destruct (fnv64a_step_eq fnv_offset64 c1') as [k1' E1'].
  pose proof (lxor_byte_high fnv_offset64 c1 ltac:(lia)) as [_ D1].
  pose proof (lxor_byte_high fnv_offset64 c1' ltac:(lia)) as [_ D1'].
  set (h1 := fnv64a_step fnv_offset64 c1) in *.
  set (h1' := fnv64a_step fnv_offset64 c1') in *.
  pose proof (fnv64a_step_range h1 c2) as R2.
  pose proof (fnv64a_step_range h1' c2') as R2'.
  destruct (fnv64a_step_eq h1 c2) as [k2 E2].
  destruct (fnv64a_step_eq h1' c2') as [k2' E2'].
  pose proof (lxor_byte_near h1 c2 ltac:(lia)) as N2.
  pose proof (lxor_byte_near h1' c2' ltac:(lia)) as N2'.
  set (h2 := fnv64a_step h1 c2) in *.
  set (h2' := fnv64a_step h1' c2') in *.
  pose proof (fnv64a_step_range h2 c3) as R3.
  pose proof (fnv64a_step_range h2' c3') as R3'.
  destruct (fnv64a_step_eq h2 c3) as [k3 E3].
  destruct (fnv64a_step_eq h2' c3') as [k3' E3'].
  pose proof (lxor_byte_near h2 c3 ltac:(lia)) as N3.
  pose proof (lxor_byte_near h2' c3' ltac:(lia)) as N3'.
  set (h3 := fnv64a_step h2 c3) in *.
  set (h3' := fnv64a_step h2' c3') in *.
  (* the last step: the values before the product are equal *)
  destruct (fnv64a_step_eq h3 c4) as [k4 E4].
  destruct (fnv64a_step_eq h3' c4') as [k4' E4'].
  assert (Z.lxor h3 (Z_of_byte c4) = Z.lxor h3' (Z_of_byte c4')) as Y4.
  { apply (prime_product_inj _ _ k4 k4');
      [by apply lxor_byte_below | by apply lxor_byte_below | congruence]. }
  pose proof (lxor_byte_high h3 c4 ltac:(lia)) as [_ D4].
  pose proof (lxor_byte_high h3' c4' ltac:(lia)) as [_ D4'].
  assert (-255 <= h3 - h3' <= 255) as He
    by (apply same_block; congruence).
  assert (-255 <= Z.lxor fnv_offset64 (Z_of_byte c1)
                  - Z.lxor fnv_offset64 (Z_of_byte c1') <= 255) as Hd1
    by (apply same_block; congruence).
  (* the four differences vanish *)
  remember (Z.lxor fnv_offset64 (Z_of_byte c1)) as y1 eqn:Ey1.
  remember (Z.lxor fnv_offset64 (Z_of_byte c1')) as y1' eqn:Ey1'.
  remember (Z.lxor h1 (Z_of_byte c2)) as y2 eqn:Ey2.
  remember (Z.lxor h1' (Z_of_byte c2')) as y2' eqn:Ey2'.
  remember (Z.lxor h2 (Z_of_byte c3)) as y3 eqn:Ey3.
  remember (Z.lxor h2' (Z_of_byte c3')) as y3' eqn:Ey3'.
  assert (y1 - y1' = 0 /\ (y2 - y2') - (h1 - h1') = 0 /\
          (y3 - y3') - (h2 - h2') = 0 /\ h3 - h3' = 0) as (Z1 & Z2 & Z3 & Z4).
  { clearbody h1 h1' h2 h2' h3 h3'.
    apply (small_combination _ _ _ _
             ((k1 - k1') * fnv_prime64 * fnv_prime64
              + (k2 - k2') * fnv_prime64 + (k3 - k3'))); lia. }
  (* hence the bytes are equal, one after the other *)
  assert (c1 = c1') as <-.
  { apply (lxor_byte_cancel fnv_offset64). rewrite <- Ey1, <- Ey1'. lia. }
  change h1' with h1 in *.
  assert (c2 = c2') as <-.
  { apply (lxor_byte_cancel h1). rewrite <- Ey2, <- Ey2'. lia. }
  change h2' with h2 in *.
  assert (c3 = c3') as <-.
  { apply (lxor_byte_cancel h2). rewrite <- Ey3, <- Ey3'. lia. }
  change h3' with h3 in *.
  assert (c4 = c4') as <-.
  { apply (lxor_byte_cancel h3). exact Y4. }
  done.
Qed.

(** On identifiers of 4 bytes the hash decides equality of the bytes. *)
Lemma calculateIAIDHash_inj_4 (a a' : list byte) :
  length a = 4%nat -> length a' = 4%nat ->
  calculateIAIDHash a = calculateIAIDHash a' -> a = a'.
Proof.
  intros Ha Ha' Heq.
  destruct a as [| c1 [| c2 [| c3 [| c4 [| ? ?]]]]]; try discriminate Ha.
  destruct a' as [| c1' [| c2' [| c3' [| c4' [| ? ?]]]]]; try discriminate Ha'.
  rewrite !calculateIAIDHash_4 in Heq.
  destruct (fnv64a_chain_inj _ _ _ _ _ _ _ _ Heq) as (-> & -> & -> & ->).
  reflexivity.
Qed.

(** ** Identifiers of 4 bytes and the hash test *)

Lemma collisionFree_4_bytes associations allIAs :
  (forall a, In a (granted associations) -> In a allIAs) ->
  Forall (fun ia => length ia = 4%nat) allIAs ->
  collisionFree associations allIAs.
Proof.
  intros Hsub Hlen a ia Ha Hia Hhash.
  rewrite Forall_forall in Hlen.
  apply calculateIAIDHash_inj_4; [| | exact Hhash].
  - apply Hlen, list_elem_of_In, Hsub, Ha.
  - apply Hlen, list_elem_of_In, Hia.
Qed.

(** Without a collision the hash test is the membership test. *)
Lemma hashGranted_collisionFree associations allIAs ia :
  collisionFree associations allIAs -> In ia allIAs ->
  hashGranted associations ia = true <-> In ia (granted associations).
Proof.
  intros Hfree Hia. split; [| apply hashGranted_of_granted].
  unfold hashGranted. rewrite existsb_exists. intros (a & Ha & Hhash).
  apply Z.eqb_eq in Hhash. by rewrite <- (Hfree a ia Ha Hia Hhash).
Qed.

(** ** C1 *)

(** On a Request, a reservation that leaves an identifier without an
    address and reports no error stops the builder. *)
Lemma run_Request_nil_error (acc : OptionAccessors) b in_ serverDUID
    configuration addresses id bootFileURL associations ia :
  Type_ in_ = MsgRequest ->
  ExtractLLAddressOrID (ClientID (Options_ in_)) = Returned id ->
  GetBootURL configuration (elems id) (ClientArchType (Options_ in_)) =
    (bootFileURL, None) ->
  ReserveAddresses addresses (elems (ClientID (Options_ in_)))
    (IaNaIDs (Options_ in_)) = (associations, None) ->
  In ia (IaNaIDs (Options_ in_)) ->
  hashGranted associations ia = false ->
  fst (run configuration addresses (BuildResponse b in_ serverDUID)) =
    Panicked NilPointerDereference.
Proof.
  intros Hty Hex Hurl Hres Hia Hg.
  rewrite (run_Request b in_ serverDUID configuration addresses id _ _ _
             Hty Hex Hurl Hres).
  destruct (iasWithoutAddesses associations (IaNaIDs (Options_ in_)))
    as [| ia' rest] eqn:Hmissing.
  - assert (In ia []) as []. rewrite <- Hmissing. by apply iasWithoutAddesses_In.
  - reflexivity.
Qed.

(** C1. The Request path takes the text of the status-coded entries from
    the error of the reservation without checking it: on a Request for
    [iaA1] and [iaA2] for which the pool grants [iaA1] alone and returns a
    nil error, [BuildResponse] calls [Error] on the nil error and panics
    instead of producing the entry for [iaA2]. *)
Theorem C1_partial_grant_with_nil_error_panics :
  iasWithoutAddesses [grant iaA1] [iaA1; iaA2] = [iaA2] /\
  run exampleConfiguration (poolGranting [grant iaA1] None None)
    (BuildResponse (H := exampleAccessors) exampleBuilder
       (exampleMessage MsgRequest 0 [iaA1; iaA2]) exampleServerDUID) =
    (Panicked NilPointerDereference,
     [Invoked (CallGetBootURL (map byte_of_Z [2; 0; 0; 0; 0; 1]) 0);
      Invoked (CallReserveAddresses exampleClientID [iaA1; iaA2]);
      Invoked CallGetRecursiveDNS]).
Proof.
  split; [rewrite iasWithoutAddesses_filter; reflexivity |].
  erewrite (run_Request (H := exampleAccessors));
    [| reflexivity | reflexivity | reflexivity | reflexivity].
  change (IaNaIDs (Options_ (exampleMessage MsgRequest 0 [iaA1; iaA2])))
    with [iaA1; iaA2].
  rewrite iasWithoutAddesses_filter. reflexivity.
Qed.

(** * Further properties of the builder *)

(** ** Every run is one of the cases *)

Lemma run_BuildResponse_cases (acc : OptionAccessors) b in_ serverDUID
    configuration addresses :
  BuildResponseRun b in_ serverDUID configuration addresses
    (run configuration addresses (BuildResponse b in_ serverDUID)).
Proof.
  destruct (handled_dec in_) as [[Hty | Hrel] | Hun].
  - destruct (ExtractLLAddressOrID (ClientID (Options_ in_))) as [id | p] eqn:Hex.
    2: { rewrite (run_extraction_panics b in_ serverDUID configuration
                    addresses p Hty Hex). by constructor. }
    destruct (GetBootURL configuration (elems id) (ClientArchType (Options_ in_)))
      as [bootFileURL [msg |]] eqn:Hurl.
    { rewrite (run_lookup_fails b in_ serverDUID configuration addresses
                 id _ _ Hty Hex Hurl). by econstructor. }
    destruct (ReserveAddresses addresses (elems (ClientID (Options_ in_)))
                (IaNaIDs (Options_ in_))) as [associations err] eqn:Hres.
    destruct Hty as [Hty | [Hty | Hty]].
    + rewrite (run_Solicit b in_ serverDUID configuration addresses
                 id _ _ _ Hty Hex Hurl Hres).
      destruct err as [msg |]; by econstructor.
    + rewrite (run_Request b in_ serverDUID configuration addresses
                 id _ _ _ Hty Hex Hurl Hres).
      destruct err as [msg |].
      * rewrite MakeMsgReply_error. simpl.
        apply (RunRequest _ _ _ _ _ id bootFileURL associations (Some msg));
          try done. by left.
      * destruct (iasWithoutAddesses associations (IaNaIDs (Options_ in_)))
          as [| ia rest] eqn:Hmissing.
        -- rewrite (MakeMsgReply_all_granted _ _ _ _ _ _ _ _ _ ""%string).
           simpl. rewrite <- Hmissing.
           apply (RunRequest _ _ _ _ _ id bootFileURL associations None);
             try done. by right.
        -- rewrite MakeMsgReply_nil_error. simpl.
           apply (RunRequestNilError _ _ _ _ _ id bootFileURL associations);
             try done. by rewrite Hmissing.
    + rewrite (run_InformationRequest b in_ serverDUID configuration addresses
                 id _ Hty Hex Hurl). by econstructor.
  - rewrite (run_Release b in_ serverDUID configuration addresses Hrel).
    by constructor.
  - rewrite (BuildResponse_unhandled b in_ serverDUID Hun). by constructor.
Qed.

(** ** The timers *)

(** X1. For a 32-bit preferred lifetime, the timers the builder computes
    are 32-bit values, T2 never exceeds the preferred lifetime, and
    T1 <= T2 holds exactly when the preferred lifetime is below 2^30, that
    is, when four times the lifetime fits in 32 bits. *)
Theorem X1_timers_ordered_iff_no_overflow (b : PacketBuilder) :
  is_uint32 (PreferredLifetime b) ->
  is_uint32 (calculateT1 b) /\
  is_uint32 (calculateT2 b) /\
  calculateT2 b <= PreferredLifetime b /\
  (calculateT1 b <= calculateT2 b <-> PreferredLifetime b < 2 ^ 30).
Proof.
  unfold is_uint32, calculateT1, calculateT2, uint32_max.
  change (2 ^ 32) with 4294967296. change (2 ^ 30) with 1073741824.
  intros Hp.
  pose proof (Z.div_mod (PreferredLifetime b) 2 ltac:(lia)) as H2.
  pose proof (Z.mod_pos_bound (PreferredLifetime b) 2 ltac:(lia)) as H2b.
  pose proof (Z.div_mod (PreferredLifetime b * 4) 4294967296 ltac:(lia)) as H32.
  pose proof (Z.mod_pos_bound (PreferredLifetime b * 4) 4294967296 ltac:(lia))
    as H32b.
  pose proof (Z.div_mod ((PreferredLifetime b * 4) mod 4294967296) 5
                ltac:(lia)) as H5.
  pose proof (Z.mod_pos_bound ((PreferredLifetime b * 4) mod 4294967296) 5
                ltac:(lia)) as H5b.
  set (p := PreferredLifetime b) in *.
  set (t1 := p / 2) in *. set (r := (p * 4) mod 4294967296) in *.
  set (k := p * 4 / 4294967296) in *. set (t2 := r / 5) in *.
  clearbody t1 r k t2.
  assert (0 <= k <= 3) as Hk by lia.
  repeat split; try lia.
Qed.

Lemma X1_timers_ordered_iff_no_overflow_witness :
  calculateT1 (MakePacketBuilder 3600 7200) <=
  calculateT2 (MakePacketBuilder 3600 7200).
Proof.
  apply (proj2 (proj2 (proj2 (proj2
           (X1_timers_ordered_iff_no_overflow (MakePacketBuilder 3600 7200)
              ltac:(vm_compute; split; congruence))))));
    reflexivity.
Defined.

(** ** Identity extraction *)

Lemma ExtractLLAddressOrID_well_formed (s : slice) :
  ~ malformedClientID s ->
  exists n,
    (n = 2 \/ n = 4 \/ n = 8)%nat /\ (n <= len s)%nat /\
    ExtractLLAddressOrID s = Returned (Slice (drop n (elems s)) (spare s)).
Proof.
  unfold malformedClientID. intros Hok.
  destruct (duidType (elems s)) as [t |] eqn:Ht.
  2: { destruct Hok. left. unfold len, duidType in *.
       destruct (elems s) as [| ? [| ? ?]]; simpl; try discriminate; lia. }
  rewrite (ExtractLLAddressOrID_tagged _ _ Ht).
  destruct (Z.eqb_spec t 1) as [-> | Hn1].
  - exists 8%nat.
    assert (8 <= len s)%nat
      by (destruct (Nat.lt_ge_cases (len s) 8); [destruct Hok; auto | done]).
    split; [auto |]. split; [done |]. by apply slice_from_ok.
  - destruct (Z.eqb_spec t 3) as [-> | Hn3].
    + exists 4%nat.
      assert (4 <= len s)%nat
        by (destruct (Nat.lt_ge_cases (len s) 4); [destruct Hok; auto | done]).
      split; [auto |]. split; [done |]. by apply slice_from_ok.
    + exists 2%nat.
      assert (2 <= len s)%nat
        by (destruct (Nat.lt_ge_cases (len s) 2); [destruct Hok; auto | done]).
      split; [auto |]. split; [done |]. by apply slice_from_ok.
Qed.

Lemma malformedClientID_dec (s : slice) :
  malformedClientID s \/ ~ malformedClientID s.
Proof.
  unfold malformedClientID.
  destruct (Nat.lt_ge_cases (len s) 2) as [? | Hge2]; [tauto |].
  destruct (duidType (elems s)) as [t |].
  2: { right. intros [? | [[? ?] | [? ?]]]; (lia || discriminate). }
  destruct (Z.eq_dec t 1) as [-> | Hn1].
  - destruct (Nat.lt_ge_cases (len s) 8) as [? | ?]; [tauto |].
    right. intros [? | [[? ?] | [? ?]]]; (lia || discriminate).
  - destruct (Z.eq_dec t 3) as [-> | Hn3].
    + destruct (Nat.lt_ge_cases (len s) 4) as [? | ?]; [tauto |].
      right. intros [? | [[? ?] | [? ?]]]; (lia || discriminate).
    + right. intros [? | [[? ?] | [? ?]]]; (lia || congruence).
Qed.

(** X2. Identity extraction panics, with a slice bound out of range,
    exactly on the malformed client identifiers; on every other
    identifier it returns the payload without a header of 2, 4 or 8
    bytes, the spare capacity of the slice unchanged. *)
Theorem X2_ExtractLLAddressOrID_panics_iff_malformed (optClientID : slice) :
  (forall p, ExtractLLAddressOrID optClientID = Panicked p <->
             malformedClientID optClientID /\ p = SliceBoundsOutOfRange) /\
  (forall r, ExtractLLAddressOrID optClientID = Returned r ->
     exists n, (n = 2 \/ n = 4 \/ n = 8)%nat /\
               elems optClientID = take n (elems optClientID) ++ elems r /\
               length (take n (elems optClientID)) = n /\
               spare r = spare optClientID).
Proof.
  destruct (malformedClientID_dec optClientID) as [Hbad | Hok].
  - rewrite (ExtractLLAddressOrID_malformed _ Hbad). split.
    + intros p. split; [intros [= <-]; done | intros [_ ->]; done].
    + intros r [=].
  - destruct (ExtractLLAddressOrID_well_formed _ Hok) as (n & Hn & Hlen & ->).
    split.
    + intros p. split; [discriminate | intros [Hbad _]; contradiction].
    + intros r [= <-]. exists n. simpl.
      split; [done |]. split; [by rewrite take_drop |].
      split; [| done]. rewrite length_take. unfold len in Hlen. lia.
Qed.

(** ** The hash and the associations without an address *)

(** X3. On identifiers of 4 bytes, the length of the association
    identifier of the IA-NA wire format, the 64-bit FNV-1a hash is
    injective: two identifiers have the same hash exactly when they have
    the same bytes. *)
Theorem X3_calculateIAIDHash_injective_on_4_bytes (a a' : list byte) :
  length a = 4%nat -> length a' = 4%nat ->
  calculateIAIDHash a = calculateIAIDHash a' <-> a = a'.
Proof.
  intros Ha Ha'. split; [by apply calculateIAIDHash_inj_4 | by intros ->].
Qed.

Lemma X3_calculateIAIDHash_injective_on_4_bytes_witness :
  calculateIAIDHash iaA1 = calculateIAIDHash iaA2 <-> iaA1 = iaA2.
Proof.
  apply (X3_calculateIAIDHash_injective_on_4_bytes iaA1 iaA2);
    reflexivity.
Defined.

Lemma filter_sublist {A : Type} (f : A -> bool) (l : list A) :
  List.filter f l `sublist_of` l.
Proof.
  induction l as [| x l IH]; simpl; [done |].
  destruct (f x); [by apply sublist_skip | by apply sublist_cons].
Qed.

(** X4. The associations without an address are exactly the requested
    identifiers whose hash is the hash of no granted identifier, as a
    list: in the order of the request and with their repetitions. Hence
    they are a sublist of the request that holds no granted identifier,
    and the whole request when nothing is granted. *)
Theorem X4_iasWithoutAddesses_is_a_filter associations allIAs :
  iasWithoutAddesses associations allIAs =
    List.filter
      (fun ia =>
         negb (existsb
                 (fun a => calculateIAIDHash a =? calculateIAIDHash ia)
                 (map InterfaceID associations)))
      allIAs /\
  iasWithoutAddesses associations allIAs `sublist_of` allIAs /\
  (forall ia, In ia (map InterfaceID associations) ->
     ~ In ia (iasWithoutAddesses associations allIAs)) /\
  iasWithoutAddesses [] allIAs = allIAs.
Proof.
  split; [apply iasWithoutAddesses_filter |].
  split; [rewrite iasWithoutAddesses_filter; apply filter_sublist |].
  split.
  - intros ia Hgr Hin. apply iasWithoutAddesses_In in Hin as [_ Hg].
    by rewrite (hashGranted_of_granted _ _ Hgr) in Hg.
  - rewrite iasWithoutAddesses_filter. unfold hashGranted. simpl.
    induction allIAs as [| ia l IH]; simpl; [done | by rewrite IH].
Qed.

(** X5. [MakeMsgReply] given a nil error and at least one identifier
    without an address panics with a nil dereference, whatever its other
    arguments. Given no association, so that the loop over the slice of
    associations dereferences nothing, it returns a Reply carrying the
    transaction identifier it was given as soon as the error is not nil
    or no identifier is without an address. And whenever it returns, the
    error was not nil or no identifier was without an address, and the
    packet is a Reply carrying the transaction identifier. *)
Theorem X5_MakeMsgReply_panics b transactionID serverDUID clientID
    clientArchType associations iasWithoutAddresses bootFileURL dnsServers err :
  (iasWithoutAddresses <> [] ->
   MakeMsgReply b transactionID serverDUID clientID clientArchType
     associations iasWithoutAddresses bootFileURL dnsServers None =
     Panicked NilPointerDereference) /\
  (err <> None \/ iasWithoutAddresses = [] ->
   exists reply,
     MakeMsgReply b transactionID serverDUID clientID clientArchType
       [] iasWithoutAddresses bootFileURL dnsServers err =
       Returned reply /\
     Type_ reply = MsgReply /\ TransactionID reply = transactionID) /\
  (forall reply,
     MakeMsgReply b transactionID serverDUID clientID clientArchType
       associations iasWithoutAddresses bootFileURL dnsServers err =
       Returned reply ->
     (err <> None \/ iasWithoutAddresses = []) /\
     Type_ reply = MsgReply /\ TransactionID reply = transactionID).
Proof.
  split; [| split].
  - destruct iasWithoutAddresses as [| ia rest]; [done |].
    intros _. apply MakeMsgReply_nil_error.
  - intros Hok. destruct err as [msg |].
    + rewrite MakeMsgReply_error. eexists. by repeat split.
    + destruct Hok as [Hne | ->]; [done |].
      rewrite (MakeMsgReply_all_granted _ _ _ _ _ _ _ _ _ ""%string).
      eexists. by repeat split.
  - intros reply. destruct err as [msg |].
    + rewrite MakeMsgReply_error. intros [= <-]. split; [by left | done].
    + destruct iasWithoutAddresses as [| ia rest].
      * rewrite (MakeMsgReply_all_granted _ _ _ _ _ _ _ _ _ ""%string).
        intros [= <-]. split; [by right | done].
      * rewrite MakeMsgReply_nil_error. discriminate.
Qed.

(** ** What a run returns *)

Ltac run_cases Hrun :=
  match type of Hrun with
  | run ?c ?a (@BuildResponse ?acc ?b ?i ?d) = _ =>
      let Hcase := fresh "Hcase" in
      pose proof (run_BuildResponse_cases acc b i d c a) as Hcase;
      rewrite Hrun in Hcase; inversion Hcase; subst; clear Hcase
  end.

(** X6. A reply of [BuildResponse] carries the transaction identifier of
    the request; it is an Advertise when the request is a Solicit and a
    Reply otherwise. *)
Theorem X6_reply_echoes_transaction_id (acc : OptionAccessors) b in_
    serverDUID configuration addresses reply err calls :
  run configuration addresses (BuildResponse b in_ serverDUID) =
    (Returned (Some reply, err), calls) ->
  TransactionID reply = TransactionID in_ /\
  Type_ reply = if Type_ in_ =? MsgSolicit then MsgAdvertise else MsgReply.
Proof.
  intros Hrun. run_cases Hrun; split; try reflexivity;
    match goal with
    | Hty : Type_ in_ = _ |- _ => rewrite Hty; reflexivity
    end.
Qed.

Lemma X6_reply_echoes_transaction_id_witness :
  exists reply calls,
    run exampleConfiguration (poolGranting [grant iaA1] None None)
      (BuildResponse (H := exampleAccessors) exampleBuilder
         (exampleMessage MsgSolicit 0 [iaA1]) exampleServerDUID) =
      (Returned (Some reply, None), calls) /\
    TransactionID reply = map byte_of_Z [10; 11; 12] /\
    Type_ reply = MsgAdvertise.
Proof.
  eexists. eexists. split; [reflexivity |].
  exact (X6_reply_echoes_transaction_id exampleAccessors exampleBuilder
           (exampleMessage MsgSolicit 0 [iaA1]) exampleServerDUID
           exampleConfiguration (poolGranting [grant iaA1] None None)
           _ None _ eq_refl).
Defined.

(** X7. Where [BuildResponse] panics. On a Solicit, Request or
    InformationRequest with a malformed client identifier it panics with
    a slice bound out of range before any call. On a Release and on a
    message of another type it never panics. On an InformationRequest,
    and on a Solicit whose reservation reports an error, it panics
    exactly when the client identifier is malformed. On a Request whose
    lookup succeeds and whose reservation returns a nil error while some
    requested identifier has the hash of no granted one, it panics with a
    nil dereference. The packet, the builder and the two collaborators
    are present, and the collaborators return. *)
Theorem X7_BuildResponse_panics (acc : OptionAccessors) b in_ serverDUID
    configuration addresses :
  (needsBootURL in_ -> malformedClientID (ClientID (Options_ in_)) ->
   run configuration addresses (BuildResponse b in_ serverDUID) =
     (Panicked SliceBoundsOutOfRange, [])) /\
  (Type_ in_ = MsgRelease \/ ~ handled in_ ->
   forall p,
     fst (run configuration addresses (BuildResponse b in_ serverDUID)) <>
       Panicked p) /\
  (Type_ in_ = MsgInformationRequest \/
   (Type_ in_ = MsgSolicit /\
    snd (ReserveAddresses addresses (elems (ClientID (Options_ in_)))
           (IaNaIDs (Options_ in_))) <> None) ->
   forall p,
     fst (run configuration addresses (BuildResponse b in_ serverDUID)) =
       Panicked p <->
     malformedClientID (ClientID (Options_ in_)) /\
     p = SliceBoundsOutOfRange) /\
  (forall id bootFileURL associations,
     Type_ in_ = MsgRequest ->
     ExtractLLAddressOrID (ClientID (Options_ in_)) = Returned id ->
     GetBootURL configuration (elems id) (ClientArchType (Options_ in_)) =
       (bootFileURL, None) ->
     ReserveAddresses addresses (elems (ClientID (Options_ in_)))
       (IaNaIDs (Options_ in_)) = (associations, None) ->
     iasWithoutAddesses associations (IaNaIDs (Options_ in_)) <> [] ->
     fst (run configuration addresses (BuildResponse b in_ serverDUID)) =
       Panicked NilPointerDereference).
Proof.
  split; [| split; [| split]].
  - intros Hty Hbad.
    by rewrite (run_extraction_panics b in_ serverDUID configuration addresses
                  _ Hty (ExtractLLAddressOrID_malformed _ Hbad)).
  - intros Hty p.
    destruct (run configuration addresses (BuildResponse b in_ serverDUID))
      as [r calls] eqn:Hrun.
    simpl. intros ->. unfold handled, needsBootURL in *.
    run_cases Hrun; unfold needsBootURL in *;
      destruct Hty as [Hty | Hty]; first [types_differ | tauto].
  - intros Hty p. split.
    + destruct (run configuration addresses (BuildResponse b in_ serverDUID))
        as [r calls] eqn:Hrun.
      simpl. intros ->. run_cases Hrun.
      * destruct (malformedClientID_dec (ClientID (Options_ in_)))
          as [Hbad | Hok].
        -- split; [done |].
           rewrite (ExtractLLAddressOrID_malformed _ Hbad) in *. congruence.
        -- destruct (ExtractLLAddressOrID_well_formed _ Hok)
             as (n & _ & _ & Hret).
           congruence.
      * destruct Hty as [Hty | [Hty _]]; types_differ.
    + intros [Hbad ->].
      assert (needsBootURL in_) as Hneeds.
      { unfold needsBootURL. destruct Hty as [Hty | [Hty _]]; auto. }
      by rewrite (run_extraction_panics b in_ serverDUID configuration
                    addresses _ Hneeds
                    (ExtractLLAddressOrID_malformed _ Hbad)).
  - intros id url assoc Hty Hex Hurl Hres Hne.
    rewrite (run_Request b in_ serverDUID configuration addresses id _ _ _
               Hty Hex Hurl Hres).
    destruct (iasWithoutAddesses assoc (IaNaIDs (Options_ in_))); [done |].
    reflexivity.
Qed.

(** X8. [BuildResponse] returns (nil, nil) exactly on the messages whose
    type is none of Solicit, Request, InformationRequest and Release: on
    the four types it handles, a run that returns gives a packet, an
    error, or both. *)
Theorem X8_nil_nil_iff_unhandled (acc : OptionAccessors) b in_ serverDUID
    configuration addresses :
  fst (run configuration addresses (BuildResponse b in_ serverDUID)) =
    Returned (None, None) <->
  ~ handled in_.
Proof.
  split.
  - destruct (run configuration addresses (BuildResponse b in_ serverDUID))
      as [r calls] eqn:Hrun.
    simpl. intros ->. by run_cases Hrun.
  - intros Hun. by rewrite (BuildResponse_unhandled b in_ serverDUID Hun).
Qed.

(** X9. An error that [BuildResponse] returns is the error of a
    collaborator: returned with a nil packet it is the error of the boot
    URL lookup, returned with a packet it is the error of the reservation
    of a Solicit or Request. *)
Theorem X9_returned_error_is_a_collaborators (acc : OptionAccessors) b in_
    serverDUID configuration addresses packet msg calls :
  run configuration addresses (BuildResponse b in_ serverDUID) =
    (Returned (packet, Some msg), calls) ->
  exists id,
    ExtractLLAddressOrID (ClientID (Options_ in_)) = Returned id /\
    ((packet = None /\
      snd (GetBootURL configuration (elems id)
             (ClientArchType (Options_ in_))) = Some msg) \/
     (packet <> None /\
      (Type_ in_ = MsgSolicit \/ Type_ in_ = MsgRequest) /\
      snd (GetBootURL configuration (elems id)
             (ClientArchType (Options_ in_))) = None /\
      snd (ReserveAddresses addresses (elems (ClientID (Options_ in_)))
             (IaNaIDs (Options_ in_))) = Some msg)).
Proof.
  intros Hrun. run_cases Hrun.
  - exists id. split; [done |]. left. split; [done |].
    match goal with Hurl : GetBootURL _ _ _ = _ |- _ => by rewrite Hurl end.
  - exists id. split; [done |]. right.
    repeat match goal with
           | Hx : GetBootURL _ _ _ = _ |- _ => rewrite Hx; clear Hx
           | Hx : ReserveAddresses _ _ _ = _ |- _ => rewrite Hx; clear Hx
           end.
    split; [done |]. split; [by left |]. by split.
  - exists id. split; [done |]. right.
    repeat match goal with
           | Hx : GetBootURL _ _ _ = _ |- _ => rewrite Hx; clear Hx
           | Hx : ReserveAddresses _ _ _ = _ |- _ => rewrite Hx; clear Hx
           end.
    split; [done |]. split; [by right |]. by split.
Qed.

Lemma X9_returned_error_is_a_collaborators_witness :
  snd (ReserveAddresses
         (poolGranting [] (Some "pool exhausted"%string) None)
         exampleClientID [iaA1]) = Some "pool exhausted"%string.
Proof.
  destruct (X9_returned_error_is_a_collaborators exampleAccessors
              exampleBuilder (exampleMessage MsgSolicit 0 [iaA1])
              exampleServerDUID exampleConfiguration
              (poolGranting [] (Some "pool exhausted"%string) None)
              _ "pool exhausted"%string _ eq_refl)
    as (id & _ & [[Hnone _] | (_ & _ & _ & Hres)]).
  - discriminate Hnone.
  - exact Hres.
Defined.

(** ** The options of a reply, by code *)

Lemma filter_entries_other {A : Type} (f : A -> Option) (code : Z)
    (l : list A) :
  (forall x, (ID (f x) =? code) = false) ->
  List.filter (fun o => ID o =? code) (map f l) = [].
Proof.
  intros Hf. induction l as [| x l IH]; simpl; [done |]. by rewrite Hf.
Qed.

Lemma filter_entries_same {A : Type} (f : A -> Option) (code : Z)
    (l : list A) :
  (forall x, (ID (f x) =? code) = true) ->
  List.filter (fun o => ID o =? code) (map f l) = map f l.
Proof.
  intros Hf. induction l as [| x l IH]; simpl; [done |]. by rewrite Hf, IH.
Qed.

Ltac by_code :=
  unfold optionsWith; cbn [Options_];
  rewrite ?MakeMsgAdvertise_options, ?MakeMsgInformationRequestReply_options;
  unfold replyOptions;
  rewrite ?List.filter_app;
  rewrite ?(filter_entries_other (addressEntry _)) by reflexivity;
  rewrite ?(filter_entries_other (fun ia => statusEntry _ ia _)) by reflexivity;
  rewrite ?(filter_entries_same (addressEntry _)) by reflexivity;
  rewrite ?(filter_entries_same (fun ia => statusEntry _ ia _)) by reflexivity;
  unfold vendorClassOption, preferenceOption, dnsOption, optionally;
  repeat match goal with
         | |- context [if ?c then _ else _] => destruct c
         | |- context [match ?c with Some _ => _ | None => _ end] => destruct c
         end;
  rewrite ?app_nil_r; try reflexivity.

(** X10. Every reply of [BuildResponse] holds exactly one client
    identifier option, echoing the client identifier of the request, as
    its first option, and exactly one server identifier option, holding
    the server identifier given to the builder. *)
Theorem X10_one_client_and_one_server_identifier (acc : OptionAccessors) b
    in_ serverDUID configuration addresses reply err calls :
  run configuration addresses (BuildResponse b in_ serverDUID) =
    (Returned (Some reply, err), calls) ->
  optionsWith OptClientID reply =
    [MakeOption OptClientID (elems (ClientID (Options_ in_)))] /\
  head (Options_ reply) =
    Some (MakeOption OptClientID (elems (ClientID (Options_ in_)))) /\
  optionsWith OptServerID reply = [MakeOption OptServerID serverDUID].
Proof.
  intros Hrun. run_cases Hrun; (split; [| split]); try reflexivity; by_code.
Qed.

Lemma X10_one_client_and_one_server_identifier_witness :
  exists reply calls,
    run exampleConfiguration
      (poolGranting [grant iaA1] (Some "pool exhausted"%string) None)
      (BuildResponse (H := exampleAccessors) exampleBuilder
         (exampleMessage MsgRequest 16 [iaA1; iaA2]) exampleServerDUID) =
      (Returned (Some reply, Some "pool exhausted"%string), calls) /\
    optionsWith OptClientID reply = [MakeOption OptClientID exampleClientID] /\
    optionsWith OptServerID reply = [MakeOption OptServerID exampleServerDUID].
Proof.
  eexists. eexists. split; [reflexivity |].
  destruct (X10_one_client_and_one_server_identifier exampleAccessors
              exampleBuilder (exampleMessage MsgRequest 16 [iaA1; iaA2])
              exampleServerDUID exampleConfiguration
              (poolGranting [grant iaA1] (Some "pool exhausted"%string) None)
              _ (Some "pool exhausted"%string) _ eq_refl)
    as (Hclient & _ & Hserver).
  split; [exact Hclient | exact Hserver].
Defined.

(** X11. The boot information of a reply is what the boot configuration
    answered. A full reply holds exactly one boot file URL option with the
    URL of the lookup, whatever that URL is, the recursive DNS servers
    option exactly when the configured list is not empty, and, in an
    Advertise only, the preference option exactly when a preference is
    configured; a reduced reply holds none of the three and none of the
    associations, only its three options. *)
Theorem X11_boot_information_of_a_reply (acc : OptionAccessors) b in_
    serverDUID configuration addresses reply err calls :
  run configuration addresses (BuildResponse b in_ serverDUID) =
    (Returned (Some reply, err), calls) ->
  (reducedReply in_ err ->
     optionsWith OptBootfileURL reply = [] /\
     optionsWith OptRecursiveDNS reply = [] /\
     optionsWith OptPreference reply = [] /\
     optionsWith OptIaNa reply = [] /\
     length (Options_ reply) = 3%nat) /\
  (~ reducedReply in_ err ->
     exists id,
       ExtractLLAddressOrID (ClientID (Options_ in_)) = Returned id /\
       optionsWith OptBootfileURL reply =
         [MakeOption OptBootfileURL
            (fst (GetBootURL configuration (elems id)
                    (ClientArchType (Options_ in_))))] /\
       optionsWith OptRecursiveDNS reply =
         dnsOption (GetRecursiveDNS configuration) /\
       optionsWith OptPreference reply =
         if Type_ in_ =? MsgSolicit
         then preferenceOption (GetPreference configuration)
         else []).
Proof.
  unfold reducedReply. intros Hrun. run_cases Hrun.
  - (* Release *)
    split; [intros _; by repeat split | intros Hfull; tauto].
  - (* Solicit, reservation failed *)
    split; [intros _; by repeat split |].
    intros Hfull. destruct Hfull. right. by split.
  - (* Solicit *)
    split; [intros [Hrel | [_ Hne]]; [types_differ | done] |].
    intros _. exists id.
    match goal with Hurl : GetBootURL _ _ _ = _ |- _ => rewrite Hurl end.
    match goal with Hty : Type_ in_ = _ |- _ => rewrite Hty end.
    match goal with
    | |- context [?x =? MsgSolicit] =>
        let v := eval vm_compute in (x =? MsgSolicit) in
        change (x =? MsgSolicit) with v
    end.
    cbv iota.
    split; [done |]. repeat split; by_code.
  - (* Request *)
    split; [intros [Hrel | [Hsol _]]; types_differ |].
    intros _. exists id.
    match goal with Hurl : GetBootURL _ _ _ = _ |- _ => rewrite Hurl end.
    match goal with Hty : Type_ in_ = _ |- _ => rewrite Hty end.
    match goal with
    | |- context [?x =? MsgSolicit] =>
        let v := eval vm_compute in (x =? MsgSolicit) in
        change (x =? MsgSolicit) with v
    end.
    cbv iota.
    split; [done |]. repeat split; by_code.
  - (* InformationRequest *)
    split; [intros [Hrel | [Hsol _]]; types_differ |].
    intros _. exists id.
    match goal with Hurl : GetBootURL _ _ _ = _ |- _ => rewrite Hurl end.
    match goal with Hty : Type_ in_ = _ |- _ => rewrite Hty end.
    match goal with
    | |- context [?x =? MsgSolicit] =>
        let v := eval vm_compute in (x =? MsgSolicit) in
        change (x =? MsgSolicit) with v
    end.
    cbv iota.
    split; [done |]. repeat split; by_code.
Qed.

Lemma X11_boot_information_of_a_reply_witness :
  exists reply calls,
    run exampleConfiguration
      (poolGranting [grant iaA1] (Some "pool exhausted"%string) None)
      (BuildResponse (H := exampleAccessors) exampleBuilder
         (exampleMessage MsgSolicit 16 [iaA1]) exampleServerDUID) =
      (Returned (Some reply, Some "pool exhausted"%string), calls) /\
    optionsWith OptBootfileURL reply = [] /\
    optionsWith OptIaNa reply = [].
Proof.
  eexists. eexists. split; [reflexivity |].
  destruct (proj1 (X11_boot_information_of_a_reply exampleAccessors
                     exampleBuilder (exampleMessage MsgSolicit 16 [iaA1])
                     exampleServerDUID exampleConfiguration
                     (poolGranting [grant iaA1]
                        (Some "pool exhausted"%string) None)
                     _ (Some "pool exhausted"%string) _ eq_refl))
    as (Hurl & _ & _ & Hia & _).
  - right. split; [reflexivity | discriminate].
  - split; [exact Hurl | exact Hia].
Defined.

(** X12. The IA-NA options of a full reply mirror the answer of the
    pool: one address entry for each association the reservation
    returned, in the order of the pool, whether or not its identifier was
    requested; in the Reply to a Request they are followed by one
    status-coded entry, with the text of the reservation error, for each
    requested identifier without an address, in the order of the request.
    The Reply to an InformationRequest holds none. *)
Theorem X12_IaNa_entries_mirror_the_reservation (acc : OptionAccessors) b
    in_ serverDUID configuration addresses reply err calls :
  run configuration addresses (BuildResponse b in_ serverDUID) =
    (Returned (Some reply, err), calls) ->
  let reservation :=
    ReserveAddresses addresses (elems (ClientID (Options_ in_)))
      (IaNaIDs (Options_ in_)) in
  (Type_ in_ = MsgSolicit -> err = None ->
     optionsWith OptIaNa reply = map (addressEntry b) (fst reservation)) /\
  (Type_ in_ = MsgRequest ->
     err = snd reservation /\
     optionsWith OptIaNa reply =
       map (addressEntry b) (fst reservation) ++
       map (fun ia => statusEntry b ia (default ""%string err))
         (iasWithoutAddesses (fst reservation) (IaNaIDs (Options_ in_)))) /\
  (Type_ in_ = MsgInformationRequest -> optionsWith OptIaNa reply = []).
Proof.
  intros Hrun reservation. subst reservation. run_cases Hrun;
    repeat match goal with
           | Hres : ReserveAddresses _ _ _ = _ |- _ => rewrite Hres; clear Hres
           end;
    (split; [| split]); intros; try types_differ; try discriminate;
    try split; try reflexivity; by_code.
Qed.

Lemma X12_IaNa_entries_mirror_the_reservation_witness :
  exists reply calls,
    run exampleConfiguration
      (poolGranting [grant iaA2; grant iaA1] None None)
      (BuildResponse (H := exampleAccessors) exampleBuilder
         (exampleMessage MsgSolicit 0 [iaA1]) exampleServerDUID) =
      (Returned (Some reply, None), calls) /\
    optionsWith OptIaNa reply =
      map (addressEntry exampleBuilder) [grant iaA2; grant iaA1].
Proof.
  eexists. eexists. split; [reflexivity |].
  apply (proj1 (X12_IaNa_entries_mirror_the_reservation exampleAccessors
                  exampleBuilder (exampleMessage MsgSolicit 0 [iaA1])
                  exampleServerDUID exampleConfiguration
                  (poolGranting [grant iaA2; grant iaA1] None None)
                  _ None _ eq_refl));
    reflexivity.
Defined.

(** ** The calls of a run *)

(** X13. A run of [BuildResponse] makes at most four collaborator calls.
    An InformationRequest never reaches the address pool and a Release
    never reaches the boot configuration; on a Solicit or Request the pool
    is asked only after the client identifier was extracted and the boot
    URL lookup succeeded. *)
Theorem X13_collaborator_call_discipline (acc : OptionAccessors) b in_
    serverDUID configuration addresses :
  let calls :=
    snd (run configuration addresses (BuildResponse b in_ serverDUID)) in
  (length calls <= 4)%nat /\
  (Type_ in_ = MsgInformationRequest ->
     forallb (fun e => negb (isPoolCall e)) calls = true) /\
  (Type_ in_ = MsgRelease ->
     forallb (fun e => negb (isConfigurationCall e)) calls = true) /\
  (needsBootURL in_ ->
     existsb isPoolCall calls = true ->
     exists id bootFileURL,
       ExtractLLAddressOrID (ClientID (Options_ in_)) = Returned id /\
       GetBootURL configuration (elems id) (ClientArchType (Options_ in_)) =
         (bootFileURL, None) /\
       head calls =
         Some (Invoked (CallGetBootURL (elems id)
                          (ClientArchType (Options_ in_))))).
Proof.
  destruct (run configuration addresses (BuildResponse b in_ serverDUID))
    as [r calls] eqn:Hrun.
  cbn [snd]. unfold needsBootURL.
  run_cases Hrun; simpl;
    (split; [lia |]);
    (split; [intros; first [reflexivity | unfold needsBootURL in *; types_differ] |]);
    (split; [intros; first [reflexivity | unfold needsBootURL in *; types_differ] |]);
    intros Hty Hpool; try discriminate Hpool.
  - (* Release *) types_differ.
  - (* Solicit, reservation failed *) by repeat eexists.
  - (* Solicit *) by repeat eexists.
  - (* Request *) by repeat eexists.
  - (* Request, nil error *) by repeat eexists.
Qed.

(** * Properties of the script and of the handlers *)

(** ** Text *)

Lemma lineFeeds_app (s t : string) :
  lineFeeds (s +:+ t) = (lineFeeds s + lineFeeds t)%nat.
Proof. induction s as [| c s IH]; simpl; [done |]. rewrite IH. lia. Qed.

Lemma allChars_app (P : ascii -> bool) (s t : string) :
  allChars P (s +:+ t) = allChars P s && allChars P t.
Proof.
  induction s as [| c s IH]; simpl; [done |]. by rewrite IH, andb_assoc.
Qed.

Lemma allChars_lineFeeds (P : ascii -> bool) (s : string) :
  P (ascii_of_nat 10) = false -> allChars P s = true -> lineFeeds s = 0%nat.
Proof.
  intros Hnl. induction s as [| c s IH]; simpl; [done |].
  intros [Hc Hs]%andb_prop. rewrite (IH Hs).
  destruct (Ascii.eqb_spec c (ascii_of_nat 10)) as [-> | _]; [congruence | done].
Qed.

Lemma upperhex_queryChar (n : nat) : queryChar (upperhex n) = true.
Proof. do 17 (destruct n as [| n]; [reflexivity |]). reflexivity. Qed.

Lemma escapeByte_queryChars (c : ascii) :
  allChars queryChar (escapeByte c) = true.
Proof.
  unfold escapeByte. destruct (Ascii.eqb c " "); [reflexivity |].
  destruct (shouldEscape c) eqn:Hc; simpl.
  - by rewrite !upperhex_queryChar.
  - unfold queryChar. by rewrite Hc.
Qed.

(** The output of [QueryEscape] holds only letters, digits and the
    characters [-_.~%+]. *)
Lemma QueryEscape_queryChars (s : string) :
  allChars queryChar (QueryEscape s) = true.
Proof.
  induction s as [| c s IH]; simpl; [done |].
  by rewrite allChars_app, escapeByte_queryChars, IH.
Qed.

Lemma QueryEscape_lineFeeds (s : string) : lineFeeds (QueryEscape s) = 0%nat.
Proof.
  apply (allChars_lineFeeds queryChar); [reflexivity |].
  apply QueryEscape_queryChars.
Qed.

Lemma string_of_uint_lineFeeds (d : Decimal.uint) :
  lineFeeds (NilEmpty.string_of_uint d) = 0%nat.
Proof. induction d; simpl; auto. Qed.

Lemma decimal_lineFeeds (i : nat) : lineFeeds (decimal i) = 0%nat.
Proof. apply string_of_uint_lineFeeds. Qed.

Lemma append_nil_r (s : string) : s +:+ "" = s.
Proof.
  induction s as [| c s IH]; [done |].
  change (String c (s +:+ "") = String c s). by f_equal.
Qed.

Lemma append_assoc (s t u : string) : (s +:+ t) +:+ u = s +:+ t +:+ u.
Proof.
  induction s as [| c s IH]; [done |].
  change (String c ((s +:+ t) +:+ u) = String c (s +:+ t +:+ u)). by f_equal.
Qed.

Lemma fold_left_append {A : Type} (g : A -> string) (l : list A) (b : string) :
  fold_left (fun b x => b +:+ g x) l b = b +:+ joined (map g l).
Proof.
  revert b. induction l as [| x l IH]; intros b; simpl.
  - by rewrite append_nil_r.
  - by rewrite IH, append_assoc.
Qed.

Lemma lineFeeds_joined {A : Type} (g : A -> string) (l : list A) (n : nat) :
  (forall x, lineFeeds (g x) = n) ->
  lineFeeds (joined (map g l)) = (n * length l)%nat.
Proof.
  intros Hg. induction l as [| x l IH]; simpl; [lia |].
  rewrite lineFeeds_app, Hg, IH. lia.
Qed.

(** ** The iPXE script *)

Lemma fold_left_appends {A : Type} (f : string -> A -> string)
    (g : A -> string) (l : list A) (b : string) :
  (forall b x, f b x = b +:+ g x) ->
  fold_left f l b = b +:+ joined (map g l).
Proof.
  intros Hf. rewrite <- fold_left_append. revert b.
  induction l as [| x l IH]; intros b; simpl; [done |]. by rewrite Hf, IH.
Qed.

Section Script.

Variable Quote : string -> string.
Variable expandCmdline : string -> (string -> string) -> string * error.

(** The line of an initrd and its argument on the boot line. *)
Let initrdLine (serverHost : string) (p : nat * string) : string :=
  "initrd --name initrd" +:+ decimal (fst p) +:+ " " +:+
  ("http://" +:+ serverHost +:+ "/_/file?name=") +:+
  QueryEscape (snd p) +:+ nl.

Let initrdArg (i : nat) : string := "initrd=initrd" +:+ decimal i +:+ " ".

(** The script, when the kernel is named and the command line expands. *)
Lemma ipxeScript_ok spec serverHost cmdline :
  Kernel spec <> ""%string ->
  expandCmdline (Cmdline spec) (fileURL serverHost) = (cmdline, None) ->
  ipxeScript Quote expandCmdline spec serverHost =
    (Some ("#!ipxe" +:+ nl +:+
           "kernel --name kernel " +:+ fileURL serverHost (Kernel spec) +:+ nl +:+
           joined (map (initrdLine serverHost)
                     (combine (seq 0 (length (Initrd spec))) (Initrd spec))) +:+
           "boot kernel " +:+
           joined (map initrdArg (seq 0 (length (Initrd spec)))) +:+
           cmdline +:+ nl),
     None).
Proof.
  intros Hk Hexp. unfold ipxeScript.
  destruct (String.eqb_spec (Kernel spec) "") as [? | _]; [done |].
  change (fun id : string =>
            "http://" +:+ serverHost +:+ "/_/file?name=" +:+ QueryEscape id)
    with (fileURL serverHost).
  rewrite Hexp.
  rewrite (fold_left_appends _ (initrdLine serverHost))
    by (by intros b [i initrd]).
  rewrite (fold_left_appends _ initrdArg) by done.
  unfold fileURL. by rewrite !append_assoc.
Qed.

(** X14. [ipxeScript] returns either a script or an error, never both and
    never neither. It fails exactly when the spec names no kernel, with
    the error [spec is missing Kernel], or when the kernel is named and
    the expansion of the command line fails, with an error that quotes
    the command line and ends with the error of the expansion. *)
Theorem X14_ipxeScript_fails_iff spec serverHost :
  (fst (ipxeScript Quote expandCmdline spec serverHost) = None <->
   snd (ipxeScript Quote expandCmdline spec serverHost) <> None) /\
  (forall msg,
     snd (ipxeScript Quote expandCmdline spec serverHost) = Some msg <->
     (Kernel spec = ""%string /\ msg = "spec is missing Kernel"%string) \/
     (Kernel spec <> ""%string /\
      exists e,
        snd (expandCmdline (Cmdline spec) (fileURL serverHost)) = Some e /\
        msg = "expanding cmdline " +:+ Quote (Cmdline spec) +:+ ": " +:+ e)).
Proof.
  destruct (String.eqb_spec (Kernel spec) "") as [Hk | Hk].
  - unfold ipxeScript. rewrite Hk. simpl. split; [done |].
    intros msg. split.
    + intros [= <-]. by left.
    + intros [[_ ->] | [Hne _]]; done.
  - destruct (expandCmdline (Cmdline spec) (fileURL serverHost))
      as [cmdline [e |]] eqn:Hexp.
    + unfold ipxeScript.
      destruct (String.eqb_spec (Kernel spec) "") as [? | _]; [done |].
      change (fun id : string =>
                "http://" +:+ serverHost +:+ "/_/file?name=" +:+ QueryEscape id)
        with (fileURL serverHost).
      rewrite Hexp. simpl. split; [done |].
      intros msg. split.
      * intros [= <-]. right. split; [done |]. by exists e.
      * intros [[Hempty _] | (_ & e' & [= <-] & ->)]; done.
    + rewrite (ipxeScript_ok _ _ _ Hk Hexp). simpl. split; [done |].
      intros msg. split; [done |].
      intros [[Hempty _] | (_ & e' & [=] & _)]. done.
Qed.

(** X15. A script that [ipxeScript] returns starts with the [#!ipxe] line
    and the kernel line, which fetches the escaped kernel name from the
    file endpoint of the server, and ends with the expanded command line
    and a line feed. When neither the host name nor the expanded command
    line holds a line feed, the script has exactly three lines more than
    there are initrds, whatever the names of the kernel and of the
    initrds are: a name cannot add a line to the script. *)
Theorem X15_ipxeScript_shape spec serverHost script :
  ipxeScript Quote expandCmdline spec serverHost = (Some script, None) ->
  exists cmdline,
    expandCmdline (Cmdline spec) (fileURL serverHost) = (cmdline, None) /\
    (exists rest,
       script = "#!ipxe" +:+ nl +:+ "kernel --name kernel " +:+
                fileURL serverHost (Kernel spec) +:+ nl +:+ rest) /\
    (exists body, script = body +:+ cmdline +:+ nl) /\
    (lineFeeds serverHost = 0%nat -> lineFeeds cmdline = 0%nat ->
     lineFeeds script = (3 + length (Initrd spec))%nat).
Proof.
  intros Hscript.
  destruct (String.eqb_spec (Kernel spec) "") as [Hk | Hk].
  { unfold ipxeScript in Hscript. rewrite Hk in Hscript. discriminate Hscript. }
  destruct (expandCmdline (Cmdline spec) (fileURL serverHost))
    as [cmdline [e |]] eqn:Hexp.
  { unfold ipxeScript in Hscript.
    destruct (String.eqb_spec (Kernel spec) "") as [? | _]; [done |].
    change (fun id : string =>
              "http://" +:+ serverHost +:+ "/_/file?name=" +:+ QueryEscape id)
      with (fileURL serverHost) in Hscript.
    rewrite Hexp in Hscript. discriminate Hscript. }
  rewrite (ipxeScript_ok _ _ _ Hk Hexp) in Hscript.
  injection Hscript as <-. exists cmdline. split; [done |].
  split; [by eexists |]. split.
  - exists ("#!ipxe" +:+ nl +:+ "kernel --name kernel " +:+
            fileURL serverHost (Kernel spec) +:+ nl +:+
            joined (map (initrdLine serverHost)
                      (combine (seq 0 (length (Initrd spec))) (Initrd spec))) +:+
            "boot kernel " +:+
            joined (map initrdArg (seq 0 (length (Initrd spec))))).
    by rewrite !append_assoc.
  - intros Hhost Hcmd. unfold fileURL.
    rewrite !lineFeeds_app.
    rewrite (lineFeeds_joined (initrdLine serverHost) _ 1).
    2: { intros [i initrd]. unfold initrdLine. cbn [fst snd].
         rewrite !lineFeeds_app, decimal_lineFeeds, QueryEscape_lineFeeds, Hhost.
         reflexivity. }
    rewrite (lineFeeds_joined initrdArg _ 0).
    2: { intros i. unfold initrdArg.
         rewrite !lineFeeds_app, decimal_lineFeeds. reflexivity. }
    rewrite QueryEscape_lineFeeds, Hhost, Hcmd.
    rewrite length_combine, length_seq.
    change (lineFeeds "#!ipxe") with 0%nat.
    change (lineFeeds nl) with 1%nat.
    change (lineFeeds "kernel --name kernel ") with 0%nat.
    change (lineFeeds "http://") with 0%nat.
    change (lineFeeds "/_/file?name=") with 0%nat.
    change (lineFeeds "boot kernel ") with 0%nat.
    lia.
Qed.

End Script.

Lemma X15_ipxeScript_shape_witness :
  exists script,
    ipxeScript (fun s => s) (fun template _ => (template, None))
      {| Kernel := "vmlinuz"; Initrd := ["initrd a"; "initrd b"];
         Cmdline := "console=ttyS0" |}
      "boot.example:8080" = (Some script, None) /\
    lineFeeds script = 5%nat.
Proof.
  eexists. split; [reflexivity |].
  destruct (X15_ipxeScript_shape (fun s => s) (fun template _ => (template, None))
              {| Kernel := "vmlinuz"; Initrd := ["initrd a"; "initrd b"];
                 Cmdline := "console=ttyS0" |}
              "boot.example:8080" _ eq_refl)
    as (cmdline & Hexp & _ & _ & Hlines).
  injection Hexp as <-. apply Hlines; reflexivity.
Defined.

(** ** The handlers *)

Section Handlers.

Variable Sprintf : string -> list Arg -> string.
Variable Quote : string -> string.
Variable ParseMAC : string -> list byte * error.
Variable Atoi : string -> Z * error.
Variables ArchIA32 ArchX64 : Z.
Variable expandCmdline : string -> (string -> string) -> string * error.

Let handle :=
  handleIpxe Sprintf Quote ParseMAC Atoi ArchIA32 ArchX64 expandCmdline.
Let script := ipxeScript Quote expandCmdline.
Let named := namesMachine ParseMAC Atoi ArchIA32 ArchX64.
Let machine := machineOf ParseMAC Atoi.

Ltac handler_cases s r :=
  subst handle script named machine;
  unfold handleIpxe, namesMachine, machineOf, httpError;
  destruct (ParseMAC (QueryGet r "mac")) as [mac [e1 |]];
  destruct (Atoi (QueryGet r "arch")) as [i [e2 |]];
  cbn [fst snd];
  destruct (Z.eqb_spec i ArchIA32); destruct (Z.eqb_spec i ArchX64);
  cbn [orb];
  try match goal with
      | |- context [BootSpec s ?m] =>
          destruct (BootSpec s m) as [[spec |] [e3 |]]
      end;
  try match goal with
      | |- context [ipxeScript Quote expandCmdline ?sp ?h] =>
          destruct (ipxeScript Quote expandCmdline sp h)
            as [body [e4 |]] eqn:Hscript
      end;
  cbn [fst snd].

(** X16. [handleIpxe] consults the booter exactly when the request names
    a machine: then the first thing it does is to ask for the boot
    specification of that machine, once; otherwise it asks the booter
    nothing, writes nothing, and answers with one error of status 400
    whose text is also logged. *)
Theorem X16_handleIpxe_validates_the_request s r :
  (named r ->
     head (handle s r) = Some (CalledBootSpec (machine r)) /\
     length (List.filter isBooterCall (handle s r)) = 1%nat) /\
  (~ named r ->
     existsb isBooterCall (handle s r) = false /\
     existsb isWrite (handle s r) = false /\
     exists format args,
       handle s r =
         [LogHTTP format args;
          HTTPError (Sprintf format args) StatusBadRequest]).
Proof.
  handler_cases s r; (split; [intros (H1 & H2 & H3) | intros Hnot]);
    try discriminate; try (destruct H3; contradiction);
    try (by split);
    try (destruct Hnot; by auto);
    (split; [reflexivity |]); (split; [reflexivity |]); by repeat eexists.
Qed.

(** X17. [handleIpxe] writes a body exactly when the request names a
    machine for which the booter returns a specification and no error;
    the body is then the last thing it does and is what [ipxeScript]
    returned. This includes the case where [ipxeScript] fails: the
    handler has then already sent the error response, and goes on to set
    the content type and to write the nil script. *)
Theorem X17_handleIpxe_writes_the_script s r :
  (existsb isWrite (handle s r) = true <->
   named r /\ exists spec, BootSpec s (machine r) = (Some spec, None)) /\
  (forall spec,
     named r -> BootSpec s (machine r) = (Some spec, None) ->
     last (handle s r) = Some (Write (fst (script spec (Host r)))) /\
     (existsb isHTTPError (handle s r) = true <->
      snd (script spec (Host r)) <> None) /\
     (forall e, snd (script spec (Host r)) = Some e ->
        handle s r =
          [CalledBootSpec (machine r);
           LogHTTP "failed to assemble ipxe script: %s" [ArgError e];
           HTTPError "couldn't get a bootspec" StatusInternalServerError;
           HeaderSet "Content-Type" "text/plain";
           Write (fst (script spec (Host r)))])).
Proof.
  split.
  - handler_cases s r; simpl; split;
      try discriminate; try (intros [(H1 & H2 & H3) _]; try discriminate;
                             destruct H3; contradiction);
      try (intros [_ [spec' [=]]]; reflexivity);
      try (intros _; split; [by auto | by eexists]).
  - intros spec0. handler_cases s r; intros (H1 & H2 & H3) Hspec;
      try discriminate; try (destruct H3; contradiction);
      injection Hspec as <-; rewrite Hscript; cbn [fst snd];
      (split; [reflexivity |]); (split; [by split |]);
      intros msg [=]; subst; reflexivity.
Qed.

(** X18. [handleIpxe] sends at most one error response. Its status is
    400 exactly for a request that names no machine, 404 when the booter
    has no specification for the machine, and 500 when the booter or the
    assembly of the script fails; the text of a 500 response is fixed, so
    that the error of the booter or of the script is logged but not sent
    to the client. *)
Theorem X18_handleIpxe_error_responses s r :
  (length (List.filter isHTTPError (handle s r)) <= 1)%nat /\
  (forall body status,
     In (HTTPError body status) (handle s r) ->
     (status = StatusBadRequest /\ ~ named r) \/
     (status = StatusNotFound /\ named r /\
      BootSpec s (machine r) = (None, None)) \/
     (status = StatusInternalServerError /\
      body = "couldn't get a bootspec"%string /\ named r /\
      (snd (BootSpec s (machine r)) <> None \/
       exists spec, BootSpec s (machine r) = (Some spec, None) /\
                    snd (script spec (Host r)) <> None))).
Proof.
  split.
  - handler_cases s r; simpl; lia.
  - intros body0 status.
    handler_cases s r; simpl; intros Hin;
      repeat match goal with
             | H : _ \/ _ |- _ => destruct H
             | H : False |- _ => destruct H
             | H : _ = _ :> Effect |- _ => first [discriminate H | injection H as <- <-]
             end;
      first
        [ left; split; [reflexivity |]; intros (H1 & H2 & H3);
          first [discriminate | destruct H3; contradiction]
        | right; left; split; [reflexivity |]; by auto
        | right; right; split; [reflexivity |]; split; [reflexivity |];
          split; [by auto |];
          first [ by left
                | right; eexists; split; [reflexivity |]; by rewrite Hscript ] ].
Qed.

Ltac in_trace :=
  simpl; split;
  [ intros Hin;
    repeat (destruct Hin as [Hin | Hin];
            [first [discriminate Hin | injection Hin as ->; reflexivity] |]);
    destruct Hin
  | intros [= ->]; intuition ].

(** X19. [handleFile] first asks the booter for the file named by the
    request. When the booter fails it copies and closes nothing and sends
    one error of status 500 with a fixed text; when the booter returns a
    file it copies it to the response and closes it last, exactly once,
    and sends no error response, also when the copy fails: a failed copy
    is only logged. *)
Theorem X19_handleFile_closes_what_it_opens s r :
  let name := QueryGet r "name"%string in
  head (handleFile s r) = Some (CalledReadBootFile name) /\
  (forall f, In (Copied f) (handleFile s r) <->
             ReadBootFile s name = (Some f, None)) /\
  (forall f, In (Closed f) (handleFile s r) <->
             ReadBootFile s name = (Some f, None)) /\
  (forall f, ReadBootFile s name = (Some f, None) ->
     last (handleFile s r) = Some (Closed f) /\
     existsb isHTTPError (handleFile s r) = false /\
     (existsb (fun e => match e with LogHTTP _ _ => true | _ => false end)
        (handleFile s r) = true <-> snd (copyResult f) <> None)) /\
  (forall body status,
     In (HTTPError body status) (handleFile s r) <->
     snd (ReadBootFile s name) <> None /\
     body = "couldn't get file"%string /\
     status = StatusInternalServerError).
Proof.
  intros name. subst name. unfold handleFile.
  destruct (ReadBootFile s (QueryGet r "name")) as [[f0 |] [e |]];
    cbn [fst snd]; (split; [reflexivity |]).
  - (* a file and an error *)
    split; [intros f; simpl; split; [intuition discriminate | discriminate] |].
    split; [intros f; simpl; split; [intuition discriminate | discriminate] |].
    split; [intros f [=] |].
    intros body0 status. simpl. split.
    + intros [[=] | [[=] | [[= <- <-] | []]]]. by repeat split.
    + intros (_ & -> & ->). auto.
  - (* a file *)
    split; [intros f; destruct (snd (copyResult f0)); in_trace |].
    split; [intros f; destruct (snd (copyResult f0)); in_trace |].
    split.
    { intros f [= <-]. destruct (snd (copyResult f0)); simpl;
        (split; [reflexivity |]); (split; [reflexivity |]); by split. }
    intros body0 status. destruct (snd (copyResult f0)); simpl; split;
      try (intros (Hne & _); done); intuition discriminate.
  - (* an error *)
    split; [intros f; simpl; split; [intuition discriminate | discriminate] |].
    split; [intros f; simpl; split; [intuition discriminate | discriminate] |].
    split; [intros f [=] |].
    intros body0 status. simpl. split.
    + intros [[=] | [[=] | [[= <- <-] | []]]]. by repeat split.
    + intros (_ & -> & ->). auto.
  - (* neither *)
    split; [intros f; simpl; split; [intuition discriminate | discriminate] |].
    split; [intros f; simpl; split; [intuition discriminate | discriminate] |].
    split; [intros f [=] |].
    intros body0 status. simpl. split; [intuition discriminate |].
    intros (Hne & _). done.
Qed.

End Handlers.

(** ** The association identifiers of a Reply to a Request *)

Lemma map_field_4 (l : list (list byte)) :
  Forall (fun ia => length ia = 4%nat) l -> map (field 4) l = l.
Proof.
  induction 1 as [| ia l Hia _ IH]; simpl; [done |].
  by rewrite (field_of_length 4 ia Hia), IH.
Qed.

(** X20. On a Request whose requested identifiers have 4 bytes, the
    length of the wire format, and whose reservation returns
    associations for identifiers among the requested ones, the
    identifiers without an address are exactly the requested identifiers
    that are not granted, by equality of the bytes, and every reply that
    [BuildResponse] returns holds entries for exactly the requested
    identifiers: none added, none dropped. *)
Theorem X20_Request_reply_identifiers_are_the_requested
    (acc : OptionAccessors) b in_ serverDUID configuration addresses reply
    err calls :
  Type_ in_ = MsgRequest ->
  Forall (fun ia => length ia = 4%nat) (IaNaIDs (Options_ in_)) ->
  (forall a,
     In a (granted
             (fst (ReserveAddresses addresses
                     (elems (ClientID (Options_ in_)))
                     (IaNaIDs (Options_ in_))))) ->
     In a (IaNaIDs (Options_ in_))) ->
  run configuration addresses (BuildResponse b in_ serverDUID) =
    (Returned (Some reply, err), calls) ->
  (forall ia,
     In ia (iasWithoutAddesses
              (fst (ReserveAddresses addresses
                      (elems (ClientID (Options_ in_)))
                      (IaNaIDs (Options_ in_))))
              (IaNaIDs (Options_ in_))) <->
     In ia (IaNaIDs (Options_ in_)) /\
     ~ In ia (granted
                (fst (ReserveAddresses addresses
                        (elems (ClientID (Options_ in_)))
                        (IaNaIDs (Options_ in_)))))) /\
  (forall ia, In ia (replyIaNaIDs reply) <-> In ia (IaNaIDs (Options_ in_))).
Proof.
  intros Hty Hlen Hsub Hrun.
  set (associations :=
         fst (ReserveAddresses addresses (elems (ClientID (Options_ in_)))
                (IaNaIDs (Options_ in_)))) in *.
  pose proof (collisionFree_4_bytes associations _ Hsub Hlen) as Hcf.
  assert (forall ia,
            In ia (iasWithoutAddesses associations (IaNaIDs (Options_ in_))) <->
            In ia (IaNaIDs (Options_ in_)) /\ ~ In ia (granted associations))
    as Hmissing.
  { intros ia. rewrite iasWithoutAddesses_In. split; intros [Hia Hg].
    - split; [done |]. rewrite <- (hashGranted_collisionFree _ _ _ Hcf Hia).
      by rewrite Hg.
    - split; [done |]. apply not_true_is_false.
      by rewrite (hashGranted_collisionFree _ _ _ Hcf Hia). }
  split; [exact Hmissing |].
  assert (exists message bootFileURL,
            Options_ reply =
              replyOptions b serverDUID (elems (ClientID (Options_ in_)))
                (ClientArchType (Options_ in_)) associations
                (iasWithoutAddesses associations (IaNaIDs (Options_ in_)))
                message bootFileURL (GetRecursiveDNS configuration))
    as (message & bootFileURL & Hopts).
  { subst associations. run_cases Hrun; try types_differ.
    match goal with
    | Hres : ReserveAddresses _ _ _ = _ |- _ => rewrite Hres
    end.
    by repeat eexists. }
  intros x. rewrite (replyIaNaIDs_replyOptions _ _ _ _ _ _ _ _ _ _ Hopts).
  rewrite <- map_app, map_field_4.
  2: { rewrite Forall_forall in Hlen. apply Forall_forall. intros ia Hin.
       apply list_elem_of_In, in_app_iff in Hin as [Hin | Hin];
         apply Hlen, list_elem_of_In; [by apply Hsub | by apply Hmissing]. }
  rewrite in_app_iff. split.
  - intros [Ha | Hia]; [by apply Hsub | by apply Hmissing].
  - intros Hia. destruct (hashGranted associations x) eqn:Hg.
    + left. by apply (hashGranted_collisionFree _ _ _ Hcf Hia).
    + right. by apply iasWithoutAddesses_In.
Qed.

Lemma X20_Request_reply_identifiers_are_the_requested_witness :
  exists reply calls,
    run exampleConfiguration
      (poolGranting [grant iaA1] (Some "pool exhausted"%string) None)
      (BuildResponse (H := exampleAccessors) exampleBuilder
         (exampleMessage MsgRequest 0 [iaA1; iaA2]) exampleServerDUID) =
      (Returned (Some reply, Some "pool exhausted"%string), calls) /\
    forall ia, In ia (replyIaNaIDs reply) <-> In ia [iaA1; iaA2].
Proof.
  eexists. eexists. split; [reflexivity |].
  refine (proj2 (X20_Request_reply_identifiers_are_the_requested
                   exampleAccessors exampleBuilder
                   (exampleMessage MsgRequest 0 [iaA1; iaA2])
                   exampleServerDUID exampleConfiguration
                   (poolGranting [grant iaA1]
                      (Some "pool exhausted"%string) None)
                   _ (Some "pool exhausted"%string) _ _ _ _ eq_refl)).
  - reflexivity.
  - repeat constructor.
  - intros a [<- | []]. left. reflexivity.
Defined.

(** C3. The reply to a Request does not always hold the requested
    identifiers, because it is not always built. The Request asks for
    [iaA1] and [iaA2], identifiers of 4 bytes with different hashes; the
    reservation returns the association of [iaA1], a subset of the
    requested ones, and a nil error. [iaA2] is found to lack an address,
    and the builder panics on the nil error where it would produce the
    entry of [iaA2]: no reply is returned, so no reply holds the two
    identifiers. *)
Theorem C3_requested_identifier_gets_no_entry :
  let in_ := exampleMessage MsgRequest 0 [iaA1; iaA2] in
  let addresses := poolGranting [grant iaA1] None None in
  IaNaIDs (OptionAccessors := exampleAccessors) (Options_ in_) =
    [iaA1; iaA2] /\
  Forall (fun ia => length ia = 4%nat) [iaA1; iaA2] /\
  calculateIAIDHash iaA1 <> calculateIAIDHash iaA2 /\
  ReserveAddresses addresses exampleClientID [iaA1; iaA2] =
    ([grant iaA1], None) /\
  (forall a, In a (granted [grant iaA1]) -> In a [iaA1; iaA2]) /\
  iasWithoutAddesses [grant iaA1] [iaA1; iaA2] = [iaA2] /\
  fst (run exampleConfiguration addresses
         (BuildResponse (H := exampleAccessors) exampleBuilder in_
            exampleServerDUID)) = Panicked NilPointerDereference /\
  (forall reply err calls,
     run exampleConfiguration addresses
       (BuildResponse (H := exampleAccessors) exampleBuilder in_
          exampleServerDUID) <> (Returned (Some reply, err), calls)).
Proof.
  intros in_ addresses.
  assert (fst (run exampleConfiguration addresses
                 (BuildResponse (H := exampleAccessors) exampleBuilder in_
                    exampleServerDUID)) = Panicked NilPointerDereference)
    as Hpanic.
  { apply (run_Request_nil_error exampleAccessors exampleBuilder in_
             exampleServerDUID exampleConfiguration addresses
             (sliceOf (map byte_of_Z [2; 0; 0; 0; 0; 1]))
             (bytes_of_string "http://[2001:db8::1]/boot.efi")
             [grant iaA1] iaA2);
      try reflexivity.
    right. left. reflexivity. }
  split; [reflexivity |].
  split; [repeat constructor |].
  split; [discriminate |].
  split; [reflexivity |].
  split; [intros a [<- | []]; left; reflexivity |].
  split; [rewrite iasWithoutAddesses_filter; reflexivity |].
  split; [exact Hpanic |].
  intros reply err calls Hrun. rewrite Hrun in Hpanic. discriminate Hpanic.
Qed.
